(** * data_plot.py: loading result.csv and plotting it

    A shallow embedding of the script [data_plot.py] of the
    spring-mass-damper repository.  The script is one straight run of
    module-level statements: six global lists are filled from a CSV file,
    then a two-panel matplotlib figure is built from them and shown.

    The embedding follows the script statement by statement:
    - Python values: [float] is an IEEE-754 binary64 number
      ([spec_float] with 53 bits of precision), [str] is [string];
    - the builtins the script calls ([float], list indexing, [append])
      are written out, with the exceptions they raise;
    - the module globals and the pyplot figure live in one [store] that is
      threaded through a state-and-exception monad, so that what has been
      appended or drawn before an exception stays visible afterwards;
    - [csv.reader] is taken at its interface: a readable file is the list
      of rows it yields, each row a list of [str] tokens (a [string] is
      read as a sequence of code points below 256), and the exception, if
      any, that iterating over it then raises;
    - matplotlib is taken at its interface as well: the figure records what
      the script asked for (lines with their data and style, labels,
      legends); the limits are the ones [set_xlim] keeps, after its check
      for limits that are not finite and its widening of a range that is
      too small. *)

From Stdlib Require Import ZArith List String Ascii Bool Lia.
From Stdlib Require Import Floats.SpecFloat.
Import ListNotations.

Local Open Scope string_scope.
Local Open Scope list_scope.
Local Open Scope Z_scope.

(** ** Python floats *)

Module PyFloat.

(** Python's [float] is a C double. *)
Definition prec : Z := 53.
Definition emax : Z := 1024.

Definition float : Type := spec_float.

Definition chars : Type := list ascii.

Definition code (c : ascii) : Z := Z.of_N (N_of_ascii c).

(** [Py_ISSPACE]: the ASCII white space of the C locale. *)
Definition is_space (c : ascii) : bool :=
  let n := code c in ((9 <=? n) && (n <=? 13)) || (n =? 32).

Definition is_digit (c : ascii) : bool :=
  let n := code c in (48 <=? n) && (n <=? 57).

Definition digit_value (c : ascii) : Z := code c - 48.

(** [Py_UNICODE_ISSPACE] on the code points a [string] can hold
    (below 256) that are not ASCII: NEL and the no-break space. *)
Definition is_unicode_space (c : ascii) : bool :=
  let n := code c in (n =? 133) || (n =? 160).

(** [_PyUnicode_TransformDecimalAndSpaceToASCII]: an all-ASCII string is
    left alone; otherwise code points below 127 are kept, Unicode white
    space becomes a blank, and the first other character (no code point
    between 127 and 255 is a decimal digit) is replaced by a question
    mark, which ends the string. *)
Definition is_ascii (c : ascii) : bool := code c <? 128.

Fixpoint transform (s : chars) : chars :=
  match s with
  | [] => []
  | c :: s' =>
      if code c <? 127 then c :: transform s'
      else if is_unicode_space c then " "%char :: transform s'
      else ["?"%char]
  end.

Definition to_ascii (s : chars) : chars :=
  if forallb is_ascii s then s else transform s.

(** Stripping, as [PyFloat_FromString] does it: blanks are skipped from
    the left, then from the right. *)
Fixpoint lstrip (s : chars) : chars :=
  match s with
  | c :: s' => if is_space c then lstrip s' else s
  | [] => []
  end.

Definition strip (s : chars) : chars := rev (lstrip (rev (lstrip s))).

(** [_Py_string_to_number_with_underscores]: an underscore is accepted
    only between two digits; accepted underscores are dropped. *)
Fixpoint drop_underscores (prev : option ascii) (s : chars) : option chars :=
  match s with
  | [] =>
      match prev with
      | Some "_"%char => None
      | _ => Some []
      end
  | c :: s' =>
      if Ascii.eqb c "_" then
        match prev with
        | Some p => if is_digit p then drop_underscores (Some c) s' else None
        | None => None
        end
      else
        match prev with
        | Some "_"%char =>
            if is_digit c
            then option_map (cons c) (drop_underscores (Some c) s')
            else None
        | _ => option_map (cons c) (drop_underscores (Some c) s')
        end
  end.

Definition has_underscore (s : chars) : bool :=
  existsb (fun c => Ascii.eqb c "_") s.

Definition without_underscores (s : chars) : option chars :=
  if has_underscore s then drop_underscores None s else Some s.

(** Reading a run of decimal digits: the number read so far, how many
    digits were read, and what follows. *)
Fixpoint digits (s : chars) (acc : Z) (n : Z) : Z * Z * chars :=
  match s with
  | c :: s' =>
      if is_digit c then digits s' (10 * acc + digit_value c) (n + 1)
      else (acc, n, s)
  | [] => (acc, n, [])
  end.

Definition sign (s : chars) : bool * chars :=
  match s with
  | "-"%char :: s' => (true, s')
  | "+"%char :: s' => (false, s')
  | _ => (false, s)
  end.

(** The exponent part.  When no digit follows the letter (and its sign)
    the letter is not part of the number: the parse stops before it. *)
Definition exponent (s : chars) : Z * chars :=
  match s with
  | c :: s' =>
      if Ascii.eqb c "e" || Ascii.eqb c "E" then
        let (neg, s1) := sign s' in
        let '(v, n, s2) := digits s1 0 0 in
        if n =? 0 then (0, s) else ((if neg then - v else v), s2)
      else (0, s)
  | [] => (0, s)
  end.

(** The double nearest to [m * 10 ^ e10] (ties to even), with the sign
    [neg]; too large a value is an infinity, too small a zero. *)
Definition round_decimal (neg : bool) (m : Z) (e10 : Z) : float :=
  if m =? 0 then S754_zero neg
  else
    let num := m * 10 ^ Z.max e10 0 in
    let den := 10 ^ Z.max (- e10) 0 in
    let '(q, e2, loc) := SFdiv_core_binary prec emax num 0 den 0 in
    binary_round_aux prec emax neg q e2 loc.

(** [_Py_dg_strtod]: sign, digits, point, digits, exponent.  At least
    one digit is required before the exponent.  The result comes with
    the unread rest of the string. *)
Definition strtod (s : chars) : option (float * chars) :=
  let (neg, s1) := sign s in
  let '(ip, nint, s2) := digits s1 0 0 in
  let '(m, nfrac, s3) :=
    match s2 with
    | "."%char :: s' => digits s' ip 0
    | _ => (ip, 0, s2)
    end in
  if nint + nfrac =? 0 then None
  else
    let (ex, s4) := exponent s3 in
    Some (round_decimal neg m (ex - nfrac), s4).

Definition lower (c : ascii) : ascii :=
  let n := code c in
  if (65 <=? n) && (n <=? 90) then ascii_of_N (Z.to_N (n + 32)) else c.

(** [case_insensitive_match]: [s] starts with the lower-case word [w];
    the rest of [s] is returned. *)
Fixpoint match_word (w s : chars) : option chars :=
  match w, s with
  | [], _ => Some s
  | a :: w', c :: s' => if Ascii.eqb (lower c) a then match_word w' s' else None
  | _ :: _, [] => None
  end.

(** [_Py_parse_inf_or_nan]. *)
Definition parse_inf_or_nan (s : chars) : option (float * chars) :=
  let (neg, s1) := sign s in
  match match_word (list_ascii_of_string "inf") s1 with
  | Some s2 =>
      match match_word (list_ascii_of_string "inity") s2 with
      | Some s3 => Some (S754_infinity neg, s3)
      | None => Some (S754_infinity neg, s2)
      end
  | None =>
      match match_word (list_ascii_of_string "nan") s1 with
      | Some s2 => Some (S754_nan, s2)
      | None => None
      end
  end.

(** [PyOS_string_to_double] as [float_from_string_inner] uses it: the
    number first, then the special values; the whole string must have
    been read. *)
Definition string_to_double (s : chars) : option float :=
  let parsed :=
    match strtod s with
    | Some p => Some p
    | None => parse_inf_or_nan s
    end in
  match parsed with
  | Some (x, []) => Some x
  | _ => None
  end.

(** [float(v)] for a [str] [v]; [None] stands for the [ValueError]. *)
Definition of_string (v : string) : option float :=
  match without_underscores (strip (to_ascii (list_ascii_of_string v))) with
  | Some s => string_to_double s
  | None => None
  end.

Definition ltb (x y : float) : bool := SFltb x y.

(** The other comparisons and the arithmetic of doubles. *)
Definition leb (x y : float) : bool := SFleb x y.
Definition eqb (x y : float) : bool := SFeqb x y.
Definition add (x y : float) : float := SFadd prec emax x y.
Definition sub (x y : float) : float := SFsub prec emax x y.
Definition mul (x y : float) : float := SFmul prec emax x y.
Definition div (x y : float) : float := SFdiv prec emax x y.
Definition abs (x : float) : float := SFabs x.
Definition opp (x : float) : float := SFopp x.

(** [math.isfinite], [numpy.isfinite]. *)
Definition is_finite (x : float) : bool :=
  match x with
  | S754_zero _ | S754_finite _ _ _ => true
  | S754_infinity _ | S754_nan => false
  end.

(** The builtin [max(a, b)]: [b] when [b > a], else [a]. *)
Definition max_ (a b : float) : float := if ltb a b then b else a.

(** A float literal of a source text: read as [float] reads it. *)
Definition literal (v : string) : float :=
  match of_string v with
  | Some x => x
  | None => S754_nan
  end.

End PyFloat.

(** ** Python: exceptions, results, list indexing *)

Module Py.

Definition float : Type := PyFloat.float.

(** The ways a [ValueError] arises in this script: [float] on a token
    that is no number (the message quotes the token and nothing else),
    [step] on data of unequal lengths, [set_xlim] on a limit that is not
    finite ("Axis limits cannot be NaN or Inf"), and the reader on bytes
    it cannot decode ([UnicodeDecodeError] is a [ValueError]). *)
Inductive value_error : Type :=
| could_not_convert (v : string)
| shape_mismatch
| limits_not_finite
| cannot_decode.

(** The exceptions this script can raise.  [OSError] carries the file
    name; [IndexError] is the interpreter's "list index out of range"
    and carries nothing; [CsvError] is [csv.Error], raised by the reader
    on a line it cannot split. *)
Inductive exn : Type :=
| OSError (filename : string)
| ValueError (why : value_error)
| IndexError
| CsvError.

Inductive result (A : Type) : Type :=
| Ok (a : A)
| Raise (e : exn).
Arguments Ok {A} a.
Arguments Raise {A} e.

(** [float(v)]: the number, or the [ValueError] that quotes [v]. *)
Definition float_ (v : string) : result float :=
  match PyFloat.of_string v with
  | Some x => Ok x
  | None => Raise (ValueError (could_not_convert v))
  end.

(** [[f(v) for v in l]]: left to right, stopping at the first exception. *)
Fixpoint comprehension {A B : Type} (f : A -> result B) (l : list A)
  : result (list B) :=
  match l with
  | [] => Ok []
  | v :: l' =>
      match f v with
      | Raise e => Raise e
      | Ok x =>
          match comprehension f l' with
          | Raise e => Raise e
          | Ok xs => Ok (x :: xs)
          end
      end
  end.

(** [l[i]]: a negative index counts from the end; out of range is an
    [IndexError]. *)
Definition getitem {A : Type} (l : list A) (i : Z) : result A :=
  let n := Z.of_nat (List.length l) in
  let j := if i <? 0 then i + n else i in
  if (j <? 0) || (n <=? j) then Raise IndexError
  else
    match nth_error l (Z.to_nat j) with
    | Some x => Ok x
    | None => Raise IndexError
    end.

End Py.

(** ** matplotlib: what a figure records *)

Module Mpl.

Import Py.

(** How the vertices of a line are joined.  [Axes.step(x, y, where=w)]
    is [plot] with the draw style ['steps-' + w], and [w] defaults to
    ['pre']. *)
Inductive drawstyle : Type := default | steps_pre | steps_post.

Record Line2D : Type := mkLine {
  xdata : list float;
  ydata : list float;
  color : string;
  linestyle : string;
  line_drawstyle : drawstyle;
  label : option string
}.

Record Legend : Type := mkLegend {
  texts : list string;
  legend_fontsize : Z;
  loc : string
}.

Record Axes : Type := mkAxes {
  subplot : Z;
  lines : list Line2D;
  xlim : option (float * float);
  xlabel : option (string * Z);
  ylabel : option (string * Z);
  tick_labelsize : option Z;
  legend_ : option Legend
}.

Record Figure : Type := mkFigure {
  figsize : option (Z * Z);
  suptitle : option (string * Z);
  axes : list Axes
}.

Definition new_axes (pos : Z) : Axes :=
  mkAxes pos [] None None None None None.

Definition new_figure (size : option (Z * Z)) : Figure :=
  mkFigure size None [].

(** [ax.plot] with a draw style: the two sequences must be equally
    long; the new line comes after the ones already there.  A line
    style that is not given is the solid one. *)
Definition add_line (ds : drawstyle) (x y : list float) (c : string)
    (lbl : option string) (ls : option string) (ax : Axes) : result Axes :=
  if Nat.eqb (List.length x) (List.length y) then
    Ok (mkAxes (subplot ax)
          (lines ax ++
             [mkLine x y c (match ls with Some s => s | None => "-" end) ds lbl])
          (xlim ax) (xlabel ax) (ylabel ax) (tick_labelsize ax) (legend_ ax))
  else Raise (ValueError shape_mismatch).

Definition step (x y : list float) (c : string) (lbl : option string)
    (ls : option string) (ax : Axes) : result Axes :=
  add_line steps_pre x y c lbl ls ax.

(** *** The limits of the x-axis

    [Axes.set_xlim(left, right)] is [Axis._set_lim]: each limit is
    checked by [_validate_converted_limits], the pair goes through the
    [nonsingular] of the major locator (for the linear scale that is
    [transforms.nonsingular] with [expander=.05]), and is put back in the
    order it was given. *)

Definition validate_converted_limits (limit : float) : result float :=
  if PyFloat.is_finite limit then Ok limit else Raise (ValueError limits_not_finite).

Definition expander : float := PyFloat.literal ".05".
Definition tiny : float := PyFloat.literal "1e-15".

(** [numpy.finfo(float).tiny], the smallest normal double, 2^-1022. *)
Definition finfo_tiny : float := S754_finite false 4503599627370496 (-1074).

(** [transforms.nonsingular(vmin, vmax, expander=.05, tiny=1e-15,
    increasing=True)]: a range that is too small for its magnitude is
    widened. *)
Definition nonsingular (vmin vmax : float) : float * float :=
  if negb (PyFloat.is_finite vmin) || negb (PyFloat.is_finite vmax)
  then (PyFloat.opp expander, expander)
  else
    let swapped := PyFloat.ltb vmax vmin in
    let lo := if swapped then vmax else vmin in
    let hi := if swapped then vmin else vmax in
    let maxabsvalue := PyFloat.max_ (PyFloat.abs lo) (PyFloat.abs hi) in
    if PyFloat.ltb maxabsvalue
         (PyFloat.mul (PyFloat.div (PyFloat.literal "1e6") tiny) finfo_tiny)
    then (PyFloat.opp expander, expander)
    else if PyFloat.leb (PyFloat.sub hi lo) (PyFloat.mul maxabsvalue tiny)
    then
      if PyFloat.eqb hi (PyFloat.literal "0") && PyFloat.eqb lo (PyFloat.literal "0")
      then (PyFloat.opp expander, expander)
      else (PyFloat.sub lo (PyFloat.mul expander (PyFloat.abs lo)),
            PyFloat.add hi (PyFloat.mul expander (PyFloat.abs hi)))
    else (lo, hi).

(** [sorted([v0, v1], reverse=r)]: the sort is stable. *)
Definition sorted_pair (reverse : bool) (v0 v1 : float) : float * float :=
  if reverse
  then if PyFloat.ltb v0 v1 then (v1, v0) else (v0, v1)
  else if PyFloat.ltb v1 v0 then (v1, v0) else (v0, v1).

(** What [_set_lim] makes of two finite limits. *)
Definition view_limits (v0 v1 : float) : float * float :=
  let reverse := PyFloat.ltb v1 v0 in
  let (a, b) := nonsingular v0 v1 in
  sorted_pair reverse a b.

Definition set_xlim (left right : float) (ax : Axes) : result Axes :=
  match validate_converted_limits left with
  | Raise e => Raise e
  | Ok v0 =>
      match validate_converted_limits right with
      | Raise e => Raise e
      | Ok v1 =>
          Ok (mkAxes (subplot ax) (lines ax) (Some (view_limits v0 v1)) (xlabel ax)
                (ylabel ax) (tick_labelsize ax) (legend_ ax))
      end
  end.

Definition set_xlabel (s : string) (fontsize : Z) (ax : Axes) : Axes :=
  mkAxes (subplot ax) (lines ax) (xlim ax) (Some (s, fontsize)) (ylabel ax)
    (tick_labelsize ax) (legend_ ax).

Definition set_ylabel (s : string) (fontsize : Z) (ax : Axes) : Axes :=
  mkAxes (subplot ax) (lines ax) (xlim ax) (xlabel ax) (Some (s, fontsize))
    (tick_labelsize ax) (legend_ ax).

Definition tick_params (labelsize : Z) (ax : Axes) : Axes :=
  mkAxes (subplot ax) (lines ax) (xlim ax) (xlabel ax) (ylabel ax)
    (Some labelsize) (legend_ ax).

(** A line enters the legend when it was given a label that is not
    empty and does not start with an underscore. *)
Definition legend_text (l : Line2D) : option string :=
  match label l with
  | Some EmptyString => None
  | Some (String "_" _) => None
  | Some s => Some s
  | None => None
  end.

Fixpoint legend_texts (ls : list Line2D) : list string :=
  match ls with
  | [] => []
  | l :: ls' =>
      match legend_text l with
      | Some s => s :: legend_texts ls'
      | None => legend_texts ls'
      end
  end.

Definition legend (fontsize : Z) (where_ : string) (ax : Axes) : Axes :=
  mkAxes (subplot ax) (lines ax) (xlim ax) (xlabel ax) (ylabel ax)
    (tick_labelsize ax)
    (Some (mkLegend (legend_texts (lines ax)) fontsize where_)).

(** *** The path a line draws

    [cbook.pts_to_prestep]: between two data points the path first moves
    vertically at the earlier abscissa, then horizontally at the later
    ordinate.  [cbook.pts_to_poststep] does it the other way round. *)
Fixpoint pts_to_prestep (x y : list float) : list (float * float) :=
  match x, y with
  | x0 :: ((_ :: _) as x'), y0 :: ((y1 :: _) as y') =>
      (x0, y0) :: (x0, y1) :: pts_to_prestep x' y'
  | x0 :: _, y0 :: _ => [(x0, y0)]
  | _, _ => []
  end.

Fixpoint pts_to_poststep (x y : list float) : list (float * float) :=
  match x, y with
  | x0 :: ((x1 :: _) as x'), y0 :: ((_ :: _) as y') =>
      (x0, y0) :: (x1, y0) :: pts_to_poststep x' y'
  | x0 :: _, y0 :: _ => [(x0, y0)]
  | _, _ => []
  end.

Definition path (l : Line2D) : list (float * float) :=
  match line_drawstyle l with
  | default => combine (xdata l) (ydata l)
  | steps_pre => pts_to_prestep (xdata l) (ydata l)
  | steps_post => pts_to_poststep (xdata l) (ydata l)
  end.

(** The straight pieces of a path, one per pair of consecutive
    vertices. *)
Fixpoint segments (p : list (float * float))
  : list ((float * float) * (float * float)) :=
  match p with
  | a :: ((b :: _) as p') => (a, b) :: segments p'
  | _ => []
  end.

Definition is_nan (a : float) : bool :=
  match a with
  | S754_nan => true
  | _ => false
  end.

(** Two ordinates (or abscissas) that fall on the same place. *)
Definition same (a b : float) : bool := SFeqb a b || (is_nan a && is_nan b).

Definition horizontal (s : (float * float) * (float * float)) : bool :=
  same (snd (fst s)) (snd (snd s)).

Definition vertical (s : (float * float) * (float * float)) : bool :=
  same (fst (fst s)) (fst (snd s)).

(** [x] lies strictly between the ends of the segment. *)
Definition spans (s : (float * float) * (float * float)) (x : float) : bool :=
  let a := fst (fst s) in
  let b := fst (snd s) in
  (PyFloat.ltb a x && PyFloat.ltb x b) || (PyFloat.ltb b x && PyFloat.ltb x a).

(** The ordinates at which the horizontal pieces of the path of [l]
    pass over the abscissa [x]. *)
Definition held_at (l : Line2D) (x : float) : list float :=
  map (fun s => snd (fst s))
    (filter (fun s => horizontal s && spans s x) (segments (path l))).

End Mpl.

(** ** The script *)

Module Script.

Import Py.

(** What [csv.reader] yields for a file: its rows, in file order. *)
Definition row : Type := list string.

(** What iterating over [csv.reader(f)] does: it yields rows, in file
    order, and then either stops or raises (bytes that cannot be decoded,
    a line the reader cannot split, an error of the device). *)
Record reading : Type := mkReading {
  rows_of : list row;
  failure : option exn
}.

(** The files the script may find: [None] when [open] fails. *)
Definition filesystem : Type := string -> option reading.

(** The module globals, the figure pyplot holds (the script calls it
    [fig1]), and what [plt.show()] has put on the screen. *)
Record store : Type := mkStore {
  t : list float;
  r : list float;
  y : list float;
  u : list float;
  limit_under : list float;
  limit_upper : list float;
  fig1 : option Mpl.Figure;
  shown : option Mpl.Figure
}.

Definition empty_store : store := mkStore [] [] [] [] [] [] None None.

(** Statements: they read and change the store and either finish with a
    value or raise.  The store reached when an exception is raised is
    kept. *)
Definition M (A : Type) : Type := store -> result A * store.

Definition ret {A : Type} (a : A) : M A := fun s => (Ok a, s).

Definition bind {A B : Type} (c : M A) (k : A -> M B) : M B :=
  fun s =>
    match c s with
    | (Ok a, s') => k a s'
    | (Raise e, s') => (Raise e, s')
    end.

Definition lift {A : Type} (x : result A) : M A := fun s => (x, s).

Definition get {A : Type} (f : store -> A) : M A := fun s => (Ok (f s), s).

Definition modify (f : store -> store) : M unit := fun s => (Ok tt, f s).

Notation "x <- c ;; k" := (bind c (fun x => k))
  (at level 61, c at next level, right associativity).
Notation "c ;; k" := (bind c (fun _ => k))
  (at level 61, right associativity).

(** [for x in xs: body]. *)
Fixpoint for_ {A : Type} (xs : list A) (body : A -> M unit) : M unit :=
  match xs with
  | [] => ret tt
  | x :: xs' => body x ;; for_ xs' body
  end.

(** [for row in reader: body]: the body runs on every row the reader
    yields; when the reader then raises, so does the loop. *)
Definition for_in (reader : reading) (body : row -> M unit) : M unit :=
  for_ (rows_of reader) body ;;
  match failure reader with
  | Some e => lift (Raise e)
  | None => ret tt
  end.

(** *** Assignments and appends to the globals *)

Definition set_t (v : list float) (s : store) : store :=
  mkStore v (r s) (y s) (u s) (limit_under s) (limit_upper s) (fig1 s) (shown s).
Definition set_r (v : list float) (s : store) : store :=
  mkStore (t s) v (y s) (u s) (limit_under s) (limit_upper s) (fig1 s) (shown s).
Definition set_y (v : list float) (s : store) : store :=
  mkStore (t s) (r s) v (u s) (limit_under s) (limit_upper s) (fig1 s) (shown s).
Definition set_u (v : list float) (s : store) : store :=
  mkStore (t s) (r s) (y s) v (limit_under s) (limit_upper s) (fig1 s) (shown s).
Definition set_limit_under (v : list float) (s : store) : store :=
  mkStore (t s) (r s) (y s) (u s) v (limit_upper s) (fig1 s) (shown s).
Definition set_limit_upper (v : list float) (s : store) : store :=
  mkStore (t s) (r s) (y s) (u s) (limit_under s) v (fig1 s) (shown s).
Definition set_fig1 (v : option Mpl.Figure) (s : store) : store :=
  mkStore (t s) (r s) (y s) (u s) (limit_under s) (limit_upper s) v (shown s).
Definition set_shown (v : option Mpl.Figure) (s : store) : store :=
  mkStore (t s) (r s) (y s) (u s) (limit_under s) (limit_upper s) (fig1 s) v.

Definition t_append (x : float) : M unit := modify (fun s => set_t (t s ++ [x]) s).
Definition r_append (x : float) : M unit := modify (fun s => set_r (r s ++ [x]) s).
Definition y_append (x : float) : M unit := modify (fun s => set_y (y s ++ [x]) s).
Definition u_append (x : float) : M unit := modify (fun s => set_u (u s ++ [x]) s).
Definition limit_under_append (x : float) : M unit :=
  modify (fun s => set_limit_under (limit_under s ++ [x]) s).
Definition limit_upper_append (x : float) : M unit :=
  modify (fun s => set_limit_upper (limit_upper s ++ [x]) s).

(** *** pyplot and the axes of [fig1] *)

(** [open(path)] followed by [csv.reader(f)]. *)
Definition open_reader (fs : filesystem) (path : string) : M reading :=
  match fs path with
  | Some reader => ret reader
  | None => lift (Raise (OSError path))
  end.

Definition plt_figure (w h : Z) : M unit :=
  modify (set_fig1 (Some (Mpl.new_figure (Some (w, h))))).

(** [plt.gcf()]: the current figure, made when there is none. *)
Definition gcf (s : store) : Mpl.Figure :=
  match fig1 s with
  | Some f => f
  | None => Mpl.new_figure None
  end.

Definition plt_suptitle (text : string) (fontsize : Z) : M unit :=
  modify (fun s =>
    let f := gcf s in
    set_fig1 (Some (Mpl.mkFigure (Mpl.figsize f) (Some (text, fontsize)) (Mpl.axes f))) s).

(** [fig1.add_subplot(pos)]: a new, empty panel; the script keeps a
    reference to it, here its position among the panels of [fig1]. *)
Definition add_subplot (pos : Z) : M nat :=
  fun s =>
    let f := gcf s in
    (Ok (List.length (Mpl.axes f)),
     set_fig1 (Some (Mpl.mkFigure (Mpl.figsize f) (Mpl.suptitle f)
                       (Mpl.axes f ++ [Mpl.new_axes pos]))) s).

Fixpoint update_nth {A : Type} (n : nat) (f : A -> result A) (l : list A)
  : result (list A) :=
  match n, l with
  | O, a :: l' =>
      match f a with
      | Ok a' => Ok (a' :: l')
      | Raise e => Raise e
      end
  | S n', a :: l' =>
      match update_nth n' f l' with
      | Ok l'' => Ok (a :: l'')
      | Raise e => Raise e
      end
  | _, [] => Ok []
  end.

(** A method call on the panel [ax]: the panel changes inside [fig1]. *)
Definition on_axes (ax : nat) (f : Mpl.Axes -> result Mpl.Axes) : M unit :=
  fun s =>
    let g := gcf s in
    match update_nth ax f (Mpl.axes g) with
    | Ok axs =>
        (Ok tt, set_fig1 (Some (Mpl.mkFigure (Mpl.figsize g) (Mpl.suptitle g) axs)) s)
    | Raise e => (Raise e, s)
    end.

Definition plt_show : M unit := modify (fun s => set_shown (fig1 s) s).

(** *** Lines 6 to 11: the accumulators *)

Definition init : M unit :=
  modify (set_t []) ;;
  modify (set_r []) ;;
  modify (set_y []) ;;
  modify (set_u []) ;;
  modify (set_limit_under []) ;;
  modify (set_limit_upper []).

(** *** Lines 14 to 24: reading the CSV file *)

Definition load_row (row_ : row) : M unit :=
  nums <- lift (comprehension float_ row_) ;;
  x0 <- lift (getitem nums 0) ;; t_append x0 ;;
  x1 <- lift (getitem nums 1) ;; r_append x1 ;;
  x2 <- lift (getitem nums 2) ;; y_append x2 ;;
  x3 <- lift (getitem nums 3) ;; u_append x3 ;;
  x4 <- lift (getitem nums 4) ;; limit_under_append x4 ;;
  x5 <- lift (getitem nums 5) ;; limit_upper_append x5.

Definition load (fs : filesystem) : M unit :=
  reader <- open_reader fs "./result.csv" ;;
  for_in reader load_row.

(** *** Lines 28 to 48: drawing *)

Definition panel_a : M unit :=
  ax1 <- add_subplot 211 ;;
  xs <- get t ;; ys <- get r ;;
  on_axes ax1 (Mpl.step xs ys "royalblue" (Some "Set-point") (Some "--")) ;;
  xs <- get t ;; ys <- get y ;;
  on_axes ax1 (Mpl.step xs ys "limegreen" (Some "Plant output") None) ;;
  ts <- get t ;;
  left <- lift (getitem ts 0) ;;
  right <- lift (getitem ts (-1)) ;;
  on_axes ax1 (Mpl.set_xlim left right) ;;
  on_axes ax1 (fun ax => Ok (Mpl.set_ylabel "Displacement [m]" 15 ax)) ;;
  on_axes ax1 (fun ax => Ok (Mpl.tick_params 13 ax)) ;;
  on_axes ax1 (fun ax => Ok (Mpl.legend 15 "upper left" ax)).

Definition panel_b : M unit :=
  ax2 <- add_subplot 212 ;;
  xs <- get t ;; ys <- get limit_upper ;;
  on_axes ax2 (Mpl.step xs ys "red" (Some "Limit") (Some "--")) ;;
  xs <- get t ;; ys <- get limit_under ;;
  on_axes ax2 (Mpl.step xs ys "red" None (Some "--")) ;;
  xs <- get t ;; ys <- get u ;;
  on_axes ax2 (Mpl.step xs ys "orange" (Some "Control input") None) ;;
  ts <- get t ;;
  left <- lift (getitem ts 0) ;;
  right <- lift (getitem ts (-1)) ;;
  on_axes ax2 (Mpl.set_xlim left right) ;;
  on_axes ax2 (fun ax => Ok (Mpl.set_xlabel "Time [s]" 15 ax)) ;;
  on_axes ax2 (fun ax => Ok (Mpl.set_ylabel "Force [N]" 15 ax)) ;;
  on_axes ax2 (fun ax => Ok (Mpl.tick_params 13 ax)) ;;
  on_axes ax2 (fun ax => Ok (Mpl.legend 15 "upper left" ax)).

Definition render : M unit :=
  plt_figure 10 7 ;;
  plt_suptitle "Spring-Mass-Damper System" 20 ;;
  panel_a ;;
  panel_b ;;
  plt_show.

(** *** The whole script *)

Definition main (fs : filesystem) : M unit :=
  init ;; load fs ;; render.

Definition run (fs : filesystem) : result unit * store := main fs empty_store.

(** A file system that holds [result.csv], read as [reader]. *)
Definition with_reading (reader : reading) : filesystem :=
  fun path => if String.eqb path "./result.csv" then Some reader else None.

(** A file system that holds [result.csv] with the given rows, all of
    them read without an error. *)
Definition with_rows (rows : list row) : filesystem :=
  with_reading (mkReading rows None).

Definition no_file : filesystem := fun _ => None.

End Script.

(** ** Vocabulary of the statements *)

Module Model.

Import Py Script.

Definition parses (v : string) : bool :=
  match PyFloat.of_string v with
  | Some _ => true
  | None => false
  end.

(** A record the loader accepts: six tokens or more, every one of them
    a number for [float]. *)
Definition valid_row (row_ : row) : bool :=
  (6 <=? List.length row_)%nat && forallb parses row_.

(** The number in field [k] of a record, when the record has such a
    field and it is a number. *)
Definition field (k : nat) (row_ : row) : option float :=
  match nth_error row_ k with
  | Some v => PyFloat.of_string v
  | None => None
  end.

Definition cell (k : nat) (row_ : row) : list float :=
  match field k row_ with
  | Some x => [x]
  | None => []
  end.

(** Column [k] of the records, in file order; a record without a number
    in field [k] gives nothing. *)
Definition column (k : nat) (rows : list row) : list float :=
  flat_map (cell k) rows.

(** The store after the six appends of one loop turn, as far as the
    numbers [nums] of the record reach. *)
Definition append_record (nums : list float) (s : store) : store :=
  mkStore (t s ++ firstn 1 nums)
          (r s ++ firstn 1 (skipn 1 nums))
          (y s ++ firstn 1 (skipn 2 nums))
          (u s ++ firstn 1 (skipn 3 nums))
          (limit_under s ++ firstn 1 (skipn 4 nums))
          (limit_upper s ++ firstn 1 (skipn 5 nums))
          (fig1 s) (shown s).

(** The store in which the six lists are the columns of [rows]. *)
Definition columns_store (rows : list row) (s : store) : store :=
  mkStore (column 0 rows) (column 1 rows) (column 2 rows) (column 3 rows)
          (column 4 rows) (column 5 rows) (fig1 s) (shown s).

(** The script up to the end of the reading loop. *)
Definition loaded (fs : filesystem) : result unit * store :=
  (init ;; load fs) empty_store.

(** A Sample Table of [n] records in the store: six lists of length [n]. *)
Definition is_table (n : nat) (s : store) : Prop :=
  List.length (t s) = n /\ List.length (r s) = n /\ List.length (y s) = n /\
  List.length (u s) = n /\ List.length (limit_under s) = n /\
  List.length (limit_upper s) = n.

(** The six lists, in the order of their assignments. *)
Definition lists_of (s : store) : list (list float) :=
  [t s; r s; y s; u s; limit_under s; limit_upper s].

(** A statement that leaves the six lists as they are, however it ends. *)
Definition keeps_lists {A : Type} (c : M A) : Prop :=
  forall s, lists_of (snd (c s)) = lists_of s.

(** A statement that leaves the screen as it is, however it ends. *)
Definition keeps_shown {A : Type} (c : M A) : Prop :=
  forall s, shown (snd (c s)) = shown s.

(** A statement that has put nothing on the screen when it raises. *)
Definition silent_when_raising {A : Type} (c : M A) : Prop :=
  forall s e, fst (c s) = Raise e -> shown (snd (c s)) = shown s.

(** *** Decimal numerals and the numbers they are *)

(** The text of a plain decimal numeral: an optional minus sign, the
    digits [ip] and, when there are digits [fp] after the point, the
    point and these digits. *)
Definition numeral (neg : bool) (ip fp : list ascii) : string :=
  string_of_list_ascii
    ((if neg then ["-"%char] else []) ++ ip ++
     match fp with
     | [] => []
     | _ :: _ => "."%char :: fp
     end).

(** The number a run of decimal digits writes. *)
Definition digits_value (ds : list ascii) : Z :=
  fold_left (fun acc c => 10 * acc + PyFloat.digit_value c) ds 0.

(** The double [x] is exactly the number [m * 10 ^ e10], negated when
    [neg]: the value of a finite double is its mantissa times two to its
    exponent. *)
Definition denotes (x : float) (neg : bool) (m e10 : Z) : Prop :=
  match x with
  | S754_zero s => s = neg /\ m = 0
  | S754_finite s M2 E2 =>
      s = neg /\
      m * 10 ^ Z.max e10 0 * 2 ^ Z.max (- E2) 0 =
      Zpos M2 * 2 ^ Z.max E2 0 * 10 ^ Z.max (- e10) 0
  | S754_infinity _ | S754_nan => False
  end.

(** The characters of a plain numeral. *)
Definition plain (c : ascii) : Prop :=
  PyFloat.is_digit c = true \/ c = "-"%char \/ c = "."%char.

(** Two limits that [set_xlim] keeps as they are given: both are finite,
    their magnitude is not below the smallest [nonsingular] accepts, and
    they are further apart than its [tiny] part of that magnitude. *)
Definition kept_limits (left right : float) : bool :=
  let swapped := PyFloat.ltb right left in
  let lo := if swapped then right else left in
  let hi := if swapped then left else right in
  let maxabsvalue := PyFloat.max_ (PyFloat.abs lo) (PyFloat.abs hi) in
  PyFloat.is_finite left && PyFloat.is_finite right &&
  negb (PyFloat.ltb maxabsvalue
          (PyFloat.mul (PyFloat.div (PyFloat.literal "1e6") Mpl.tiny) Mpl.finfo_tiny)) &&
  negb (PyFloat.leb (PyFloat.sub hi lo) (PyFloat.mul maxabsvalue Mpl.tiny)).

(** The number a literal stands for. *)
Definition lit (v : string) : float :=
  match PyFloat.of_string v with
  | Some x => x
  | None => S754_nan
  end.

(** What [render] leaves in [fig1] for a table whose first and last
    times are [x0] and [xN]. *)
Definition panel_a_of (s : store) (x0 xN : float) : Mpl.Axes :=
  Mpl.mkAxes 211
    [Mpl.mkLine (t s) (r s) "royalblue" "--" Mpl.steps_pre (Some "Set-point");
     Mpl.mkLine (t s) (y s) "limegreen" "-" Mpl.steps_pre (Some "Plant output")]
    (Some (x0, xN)) None (Some ("Displacement [m]", 15)) (Some 13)
    (Some (Mpl.mkLegend ["Set-point"; "Plant output"] 15 "upper left")).

Definition panel_b_of (s : store) (x0 xN : float) : Mpl.Axes :=
  Mpl.mkAxes 212
    [Mpl.mkLine (t s) (limit_upper s) "red" "--" Mpl.steps_pre (Some "Limit");
     Mpl.mkLine (t s) (limit_under s) "red" "--" Mpl.steps_pre None;
     Mpl.mkLine (t s) (u s) "orange" "-" Mpl.steps_pre (Some "Control input")]
    (Some (x0, xN)) (Some ("Time [s]", 15)) (Some ("Force [N]", 15)) (Some 13)
    (Some (Mpl.mkLegend ["Limit"; "Control input"] 15 "upper left")).

Definition figure_of (s : store) (x0 xN : float) : Mpl.Figure :=
  Mpl.mkFigure (Some (10, 7)) (Some ("Spring-Mass-Damper System", 20))
    [panel_a_of s x0 xN; panel_b_of s x0 xN].

(** What is in [fig1] when drawing stops at the limits of the first
    panel of an empty table. *)
Definition unfinished_figure : Mpl.Figure :=
  Mpl.mkFigure (Some (10, 7)) (Some ("Spring-Mass-Damper System", 20))
    [Mpl.mkAxes 211
       [Mpl.mkLine [] [] "royalblue" "--" Mpl.steps_pre (Some "Set-point");
        Mpl.mkLine [] [] "limegreen" "-" Mpl.steps_pre (Some "Plant output")]
       None None None None None].

(** What is in [fig1] when drawing stops at the limits of the first
    panel: the panel has its two lines and nothing else. *)
Definition stopped_figure (s : store) : Mpl.Figure :=
  Mpl.mkFigure (Some (10, 7)) (Some ("Spring-Mass-Damper System", 20))
    [Mpl.mkAxes 211
       [Mpl.mkLine (t s) (r s) "royalblue" "--" Mpl.steps_pre (Some "Set-point");
        Mpl.mkLine (t s) (y s) "limegreen" "-" Mpl.steps_pre (Some "Plant output")]
       None None None None None].

(** The figure drawn for a table whose first and last times are [x0] and
    [xN]. *)
Definition drawn_figure (s : store) (x0 xN : float) : Mpl.Figure :=
  figure_of s (fst (Mpl.view_limits x0 xN)) (snd (Mpl.view_limits x0 xN)).

(** The records of the axis-clamp scenario, and its first two records
    alone (the step scenario). *)
Definition three_records : list row :=
  [["0"; "1"; "0"; "0"; "-5"; "5"];
   ["1"; "1"; "0.5"; "2"; "-5"; "5"];
   ["2"; "1"; "1"; "2"; "-5"; "5"]].

Definition two_records : list row :=
  [["0"; "1"; "0"; "0"; "-5"; "5"];
   ["1"; "1"; "0.5"; "2"; "-5"; "5"]].

(** One good record followed by a unit in a seventh field. *)
Definition record_with_unit : list row :=
  [["0"; "1"; "0"; "0"; "-5"; "5"; "N"]].

(** A record of three numbers. *)
Definition three_fields : list row := [["1"; "2"; "3"]].

Definition good_record : row := ["0"; "1"; "0"; "0"; "-5"; "5"].

(** Two records of six numbers each; the second has a seventh field that
    is no number. *)
Definition record_with_note : list row :=
  [["0"; "1"; "0"; "0"; "-5"; "5"];
   ["1"; "1"; "0.5"; "2"; "-5"; "5"; "n/a"]].

(** One record, at time 4. *)
Definition one_record : list row := [["4"; "1"; "0"; "0"; "-5"; "5"]].

(** Two records; the time of the second is not a number. *)
Definition nan_time : list row :=
  [["0"; "1"; "0"; "0"; "-5"; "5"];
   ["nan"; "1"; "0.5"; "2"; "-5"; "5"]].

End Model.

(** ** Facts about the builtins *)

Module PyFacts.

Import Py.

(** [float] on a few tokens: exact decimals are read exactly (0.5 is
    2^52 * 2^-53), others go to the nearest double, ties to even. *)
Example float_half :
  PyFloat.of_string "0.5" = Some (S754_finite false 4503599627370496 (-53)).
Proof. vm_compute. reflexivity. Qed.

Example float_tenth :
  PyFloat.of_string "0.1" = Some (S754_finite false 7205759403792794 (-56)).
Proof. vm_compute. reflexivity. Qed.

Example float_tie_to_even :
  PyFloat.of_string "9007199254740993" = Some (S754_finite false 4503599627370496 1).
Proof. vm_compute. reflexivity. Qed.

Example float_overflow : PyFloat.of_string "1e400" = Some (S754_infinity false).
Proof. vm_compute. reflexivity. Qed.

Example float_smallest : PyFloat.of_string "5e-324" = Some (S754_finite false 1 (-1074)).
Proof. vm_compute. reflexivity. Qed.

Example float_minus_zero : PyFloat.of_string "-0.0" = Some (S754_zero true).
Proof. vm_compute. reflexivity. Qed.

Example float_underscore :
  PyFloat.of_string "1_000" = PyFloat.of_string "1000" /\
  PyFloat.of_string "1__000" = None /\ PyFloat.of_string "1000_" = None.
Proof. vm_compute. repeat split. Qed.

Example float_rejected :
  PyFloat.of_string EmptyString = None /\ PyFloat.of_string "abc" = None /\
  PyFloat.of_string "1e" = None /\ PyFloat.of_string "." = None /\
  PyFloat.of_string "0x10" = None /\ PyFloat.of_string "1 2" = None /\
  PyFloat.of_string "infinit" = None /\ PyFloat.of_string "N" = None.
Proof. vm_compute. repeat split. Qed.

Example getitem_negative :
  getitem [1; 2; 3] (-1) = Ok 3 /\ getitem [1; 2; 3] (-3) = Ok 1 /\
  getitem [1; 2; 3] (-4) = Raise IndexError /\ getitem [1; 2; 3] 3 = Raise IndexError.
Proof. vm_compute. repeat split. Qed.

Lemma getitem_nat {A : Type} (l : list A) (k : nat) :
  getitem l (Z.of_nat k) =
  match nth_error l k with
  | Some x => Ok x
  | None => Raise IndexError
  end.
Proof.
  unfold getitem.
  assert (Hk : (Z.of_nat k <? 0) = false) by (apply Z.ltb_ge; lia).
  rewrite !Hk.
  destruct (Z.leb_spec (Z.of_nat (List.length l)) (Z.of_nat k)) as [Hout | Hin];
    cbn [orb].
  - assert (Hnone : nth_error l k = None) by (apply nth_error_None; lia).
    now rewrite Hnone.
  - now rewrite Nat2Z.id.
Qed.

Lemma getitem_first {A : Type} (x : A) (l : list A) : getitem (x :: l) 0 = Ok x.
Proof. exact (getitem_nat (x :: l) 0). Qed.

Lemma getitem_empty {A : Type} (i : Z) : getitem (@nil A) i = Raise IndexError.
Proof.
  unfold getitem. cbn [List.length Z.of_nat].
  destruct (Z.ltb_spec i 0) as [Hi | Hi].
  - assert (H : (i + 0 <? 0) = true) by (apply Z.ltb_lt; lia).
    now rewrite H.
  - assert (H : (0 <=? i) = true) by (apply Z.leb_le; lia).
    rewrite H. now rewrite orb_true_r.
Qed.

(** [l[-1]] is the last element. *)
Lemma getitem_minus_one {A : Type} (l : list A) (x : A) :
  nth_error l (List.length l - 1) = Some x -> l <> [] -> getitem l (-1) = Ok x.
Proof.
  intros Hx Hne. unfold getitem.
  assert (Hlen : (0 < List.length l)%nat) by (destruct l; [congruence | cbn; lia]).
  change (-1 <? 0) with true. cbv iota.
  assert (H1 : (-1 + Z.of_nat (List.length l) <? 0) = false) by (apply Z.ltb_ge; lia).
  assert (H2 : (Z.of_nat (List.length l) <=? -1 + Z.of_nat (List.length l)) = false)
    by (apply Z.leb_gt; lia).
  rewrite H1, H2. cbn [orb].
  replace (Z.to_nat (-1 + Z.of_nat (List.length l))) with (List.length l - 1)%nat by lia.
  now rewrite Hx.
Qed.

Lemma comprehension_length {A B : Type} (f : A -> result B) (l : list A) (xs : list B) :
  comprehension f l = Ok xs -> List.length xs = List.length l.
Proof.
  revert xs. induction l as [| v l IH]; intros xs H; cbn in H.
  - now inversion H.
  - destruct (f v); [| discriminate].
    destruct (comprehension f l); [| discriminate].
    inversion H; subst. cbn. now rewrite (IH _ eq_refl).
Qed.

Lemma comprehension_nth {A B : Type} (f : A -> result B) (l : list A) (xs : list B) :
  comprehension f l = Ok xs ->
  forall k v, nth_error l k = Some v ->
  exists x, f v = Ok x /\ nth_error xs k = Some x.
Proof.
  revert xs. induction l as [| a l IH]; intros xs H k v Hk.
  - destruct k; discriminate.
  - cbn in H. destruct (f a) as [b |] eqn:Hfa; [| discriminate].
    destruct (comprehension f l) as [bs |] eqn:Hl; [| discriminate].
    inversion H; subst.
    destruct k as [| k]; cbn in Hk |- *.
    + inversion Hk; subst. now exists b.
    + exact (IH bs eq_refl k v Hk).
Qed.

(** A comprehension succeeds exactly when [f] does on every element. *)
Lemma comprehension_ok {A B : Type} (f : A -> result B) (l : list A) :
  (forall v, In v l -> exists x, f v = Ok x) ->
  exists xs, comprehension f l = Ok xs.
Proof.
  induction l as [| a l IH]; intros H.
  - now exists [].
  - destruct (H a (or_introl eq_refl)) as [b Hb].
    destruct IH as [bs Hbs]; [intros v Hv; apply H; now right |].
    exists (b :: bs). cbn. now rewrite Hb, Hbs.
Qed.

(** It raises what [f] raises on the first element it rejects. *)
Lemma comprehension_raise {A B : Type} (f : A -> result B) (good : list A)
    (bad : A) (more : list A) (e : exn) :
  (forall v, In v good -> exists x, f v = Ok x) ->
  f bad = Raise e ->
  comprehension f (good ++ bad :: more) = Raise e.
Proof.
  induction good as [| a good IH]; intros Hgood Hbad; cbn.
  - now rewrite Hbad.
  - destruct (Hgood a (or_introl eq_refl)) as [b Hb]. rewrite Hb.
    rewrite IH; [reflexivity | | assumption].
    intros v Hv. apply Hgood. now right.
Qed.

Lemma comprehension_firstn {A B : Type} (f : A -> result B) (l : list A)
    (xs : list B) (n : nat) :
  comprehension f l = Ok xs ->
  comprehension f (firstn n l) = Ok (firstn n xs).
Proof.
  revert xs n. induction l as [| a l IH]; intros xs n H; cbn in H.
  - inversion H; subst. now destruct n.
  - destruct (f a) as [b |] eqn:Hfa; [| discriminate].
    destruct (comprehension f l) as [bs |] eqn:Hl; [| discriminate].
    inversion H; subst.
    destruct n as [| n]; cbn; [reflexivity |].
    now rewrite Hfa, (IH bs n eq_refl).
Qed.

End PyFacts.

(** ** Facts about rounding *)

Module RoundFacts.

Import PyFloat.

Lemma digits2_size (p : positive) : digits2_pos p = Pos.size p.
Proof. induction p as [p IH | p IH |]; cbn; now rewrite ?IH. Qed.

(** The number of binary digits of a positive number. *)
Lemma digits2_bounds (p : positive) :
  2 ^ (Zpos (digits2_pos p) - 1) <= Zpos p < 2 ^ Zpos (digits2_pos p).
Proof.
  rewrite digits2_size. split.
  - assert (H := Pos.size_le p).
    assert (H2 : 2 ^ Zpos (Pos.size p) <= 2 * Zpos p).
    { change (2 * Zpos p) with (Zpos p~0). rewrite <- Pos2Z.inj_pow. now apply Pos2Z.pos_le_pos. }
    replace (Zpos (Pos.size p)) with (Zpos (Pos.size p) - 1 + 1) in H2 by lia.
    rewrite Z.pow_add_r, Z.pow_1_r in H2 by lia. lia.
  - assert (H := Pos.size_gt p).
    rewrite <- Pos2Z.inj_pow. now apply Pos2Z.pos_lt_pos.
Qed.

Lemma digits2_unique (p : positive) (d : Z) :
  2 ^ (d - 1) <= Zpos p < 2 ^ d -> Zpos (digits2_pos p) = d.
Proof.
  intros [Hlo Hhi]. destruct (digits2_bounds p) as [Blo Bhi].
  assert (Hd : 0 < d).
  { destruct (Z.lt_trichotomy d 0) as [Hn | [-> | Hp]]; [| cbn in Hhi; lia | assumption].
    rewrite Z.pow_neg_r in Hhi by lia. lia. }
  assert (H1 : d - 1 < Zpos (digits2_pos p)).
  { apply (Z.pow_lt_mono_r_iff 2); lia. }
  assert (H2 : Zpos (digits2_pos p) - 1 < d).
  { apply (Z.pow_lt_mono_r_iff 2); lia. }
  lia.
Qed.


Lemma iter_pos_nat {A : Type} (f : A -> A) (p : positive) (x : A) :
  iter_pos f p x = Nat.iter (Pos.to_nat p) f x.
Proof.
  revert x. induction p as [p IH | p IH |]; intros x; cbn [iter_pos].
  - rewrite !IH, Pos2Nat.inj_xI.
    replace (S (2 * Pos.to_nat p)) with (Pos.to_nat p + (Pos.to_nat p + 1))%nat by lia.
    rewrite !Nat.iter_add. reflexivity.
  - rewrite !IH, Pos2Nat.inj_xO.
    replace (2 * Pos.to_nat p)%nat with (Pos.to_nat p + Pos.to_nat p)%nat by lia.
    now rewrite Nat.iter_add.
  - reflexivity.
Qed.

(** Shifting out zeros leaves no round or sticky bit. *)
Lemma shr_exact (n : nat) (M : positive) :
  Nat.iter n shr_1 (Build_shr_record (Zpos M * 2 ^ Z.of_nat n) false false) =
  Build_shr_record (Zpos M) false false.
Proof.
  revert M. induction n as [| n IH]; intros M.
  - cbn [Nat.iter Z.of_nat]. now rewrite Z.pow_0_r, Z.mul_1_r.
  - cbn [Nat.iter nat_rect].
    replace (Zpos M * 2 ^ Z.of_nat (S n)) with (Zpos M~0 * 2 ^ Z.of_nat n).
    + change (nat_rect _ _ _ n) with
        (Nat.iter n shr_1 (Build_shr_record (Zpos M~0 * 2 ^ Z.of_nat n) false false)).
      now rewrite IH.
    + rewrite Nat2Z.inj_succ, Z.pow_succ_r by lia.
      change (Zpos M~0) with (2 * Zpos M). ring.
Qed.

Lemma shr_fexp_exact (M : positive) (E k : Z) :
  0 <= k ->
  fexp prec emax (Zpos (digits2_pos M) + E) = E ->
  shr_fexp prec emax (Zpos M * 2 ^ k) (E - k) loc_Exact =
  (Build_shr_record (Zpos M) false false, E).
Proof.
  intros Hk Hfexp. unfold shr_fexp.
  assert (Hq : 0 < Zpos M * 2 ^ k) by (apply Z.mul_pos_pos; [lia | now apply Z.pow_pos_nonneg]).
  destruct (Zpos M * 2 ^ k) as [| q | q] eqn:Eq; try lia.
  assert (Hd : Zpos (digits2_pos q) = Zpos (digits2_pos M) + k).
  { apply digits2_unique. rewrite <- Eq.
    destruct (digits2_bounds M) as [Blo Bhi].
    replace (Zpos (digits2_pos M) + k - 1) with (Zpos (digits2_pos M) - 1 + k) by lia.
    rewrite !Z.pow_add_r by lia.
    assert (0 < 2 ^ k) by now apply Z.pow_pos_nonneg.
    split; [apply Z.mul_le_mono_nonneg_r | apply Z.mul_lt_mono_pos_r]; lia. }
  cbn [Zdigits2]. rewrite Hd.
  replace (Zpos (digits2_pos M) + k + (E - k)) with (Zpos (digits2_pos M) + E) by lia.
  rewrite Hfexp. replace (E - (E - k)) with k by lia.
  unfold shr, shr_record_of_loc.
  destruct k as [| pk | pk]; try lia.
  - rewrite Z.pow_0_r, Z.mul_1_r in Eq. inversion Eq; subst. f_equal. lia.
  - rewrite iter_pos_nat, <- Eq.
    replace (Zpos pk) with (Z.of_nat (Pos.to_nat pk)) at 1 by apply positive_nat_Z.
    rewrite shr_exact. f_equal. lia.
Qed.

(** A decimal that is exactly a double is read as that double. *)
Theorem round_decimal_exact (neg : bool) (m e10 : Z) (M2 : positive) (E2 : Z) :
  bounded prec emax M2 E2 = true ->
  m * 10 ^ Z.max e10 0 * 2 ^ Z.max (- E2) 0 =
  Zpos M2 * 2 ^ Z.max E2 0 * 10 ^ Z.max (- e10) 0 ->
  round_decimal neg m e10 = S754_finite neg M2 E2.
Proof.
  intros Hb Hval.
  unfold bounded, canonical_mantissa in Hb.
  apply andb_true_iff in Hb as [Hcan Hmax].
  apply Z.eqb_eq in Hcan. apply Z.leb_le in Hmax.
  set (a := Z.max e10 0) in *. set (b := Z.max (- e10) 0) in *.
  assert (Hden : 0 < 10 ^ b) by (apply Z.pow_pos_nonneg; lia).
  assert (H10a : 0 < 10 ^ a) by (apply Z.pow_pos_nonneg; lia).
  assert (HP : 0 < 2 ^ Z.max (- E2) 0) by (apply Z.pow_pos_nonneg; lia).
  assert (HR : 0 < 2 ^ Z.max E2 0) by (apply Z.pow_pos_nonneg; lia).
  assert (Hm : 0 < m) by nia.
  unfold round_decimal. fold a b.
  assert (Hm0 : (m =? 0) = false) by (apply Z.eqb_neq; lia). rewrite Hm0.
  set (num := m * 10 ^ a) in *.
  assert (Hnum : 0 < num) by (unfold num; nia).
  unfold SFdiv_core_binary.
  destruct num as [| pn | pn] eqn:En; try lia.
  destruct (10 ^ b) as [| pd | pd] eqn:Ed; try lia.
  cbn [Zdigits2].
  set (d1 := Zpos (digits2_pos pn)). set (d2 := Zpos (digits2_pos pd)).
  set (dM := Zpos (digits2_pos M2)) in *.
  destruct (digits2_bounds pn) as [N1 N2]. destruct (digits2_bounds pd) as [D1 D2].
  destruct (digits2_bounds M2) as [M1 M2']. fold d1 in N1, N2. fold d2 in D1, D2.
  fold dM in M1, M2'.
  assert (Hmag : d1 - d2 <= dM + E2).
  { assert (Hlt : 2 ^ (d1 - 1 + Z.max (- E2) 0) < 2 ^ (dM + Z.max E2 0 + d2)).
    { rewrite !Z.pow_add_r by (unfold d1, d2, dM; lia).
      apply Z.le_lt_trans with (Zpos pn * 2 ^ Z.max (- E2) 0).
      - apply Z.mul_le_mono_nonneg_r; lia.
      - rewrite Hval.
        apply Z.lt_le_trans with (2 ^ dM * 2 ^ Z.max E2 0 * Zpos pd).
        + apply Z.mul_lt_mono_pos_r; [lia |]. apply Z.mul_lt_mono_pos_r; lia.
        + apply Z.mul_le_mono_nonneg_l; [| lia].
          apply Z.mul_nonneg_nonneg; [apply Z.pow_nonneg |]; lia. }
    apply Z.pow_lt_mono_r_iff in Hlt; unfold d1, d2, dM in *; lia. }
  set (e' := Z.min (fexp prec emax (d1 + 0 - (d2 + 0))) (0 - 0)).
  assert (He' : e' <= E2 /\ e' <= 0).
  { unfold e'. rewrite <- Hcan. unfold fexp, emin, prec, emax in *. lia. }
  destruct He' as [HeE He0].
  replace (0 - 0 - e') with (- e') by lia.
  set (m' := match - e' with
             | 0 => Zpos pn
             | Zpos _ => Z.shiftl (Zpos pn) (- e')
             | Zneg _ => 0
             end).
  assert (Hm' : m' = Zpos M2 * 2 ^ (E2 - e') * Zpos pd).
  { assert (Hs : m' = Zpos pn * 2 ^ (- e')).
    { unfold m'. destruct (- e') as [| p | p] eqn:Es; try lia.
      rewrite Z.shiftl_mul_pow2 by lia. reflexivity. }
    rewrite Hs.
    destruct (Z.le_ge_cases 0 E2) as [Hpos | Hnegv].
    - rewrite (Z.max_r (- E2) 0), (Z.max_l E2 0), Z.pow_0_r, Z.mul_1_r in Hval by lia.
      rewrite Hval. replace (E2 - e') with (E2 + - e') by lia.
      rewrite Z.pow_add_r by lia. ring.
    - rewrite (Z.max_l (- E2) 0), (Z.max_r E2 0), Z.pow_0_r, Z.mul_1_r in Hval by lia.
      replace (- e') with (- E2 + (E2 - e')) by lia.
      rewrite Z.pow_add_r by lia.
      rewrite Z.mul_assoc, Hval. ring. }
  assert (Hdiv : Z.div_eucl m' (Zpos pd) = (Zpos M2 * 2 ^ (E2 - e'), 0)).
  { assert (Hq : m' / Zpos pd = Zpos M2 * 2 ^ (E2 - e'))
      by (rewrite Hm'; apply Z.div_mul; lia).
    assert (Hr : m' mod Zpos pd = 0) by (rewrite Hm'; apply Z.mod_mul; lia).
    unfold Z.div, Z.modulo in Hq, Hr.
    destruct (Z.div_eucl m' (Zpos pd)) as [q r]. now subst. }
  rewrite Hdiv.
  assert (Hloc : new_location (Zpos pd) 0 = loc_Exact).
  { unfold new_location, new_location_even, new_location_odd.
    now destruct (Z.even (Zpos pd)). }
  rewrite Hloc. unfold binary_round_aux.
  replace e' with (E2 - (E2 - e')) at 2 by lia.
  rewrite (shr_fexp_exact M2 E2 (E2 - e')) by (fold dM; lia).
  cbn [shr_m loc_of_shr_record round_nearest_even].
  replace (Zpos M2) with (Zpos M2 * 2 ^ 0) at 1 by (rewrite Z.pow_0_r; lia).
  replace E2 with (E2 - 0) at 1 by lia.
  rewrite (shr_fexp_exact M2 E2 0) by (fold dM; lia).
  cbn [shr_m].
  apply Z.leb_le in Hmax. now rewrite Hmax.
Qed.

(** A double that is exactly the decimal [m * 10 ^ e10] is the one this
    decimal is rounded to. *)
Theorem round_decimal_denotes (x : float) (neg : bool) (m e10 : Z) :
  valid_binary prec emax x = true ->
  Model.denotes x neg m e10 ->
  round_decimal neg m e10 = x.
Proof.
  intros Hv Hd. destruct x as [s | s | | s M2 E2]; cbn in Hd; try contradiction.
  - destruct Hd as [-> ->]. reflexivity.
  - destruct Hd as [-> Hval]. now apply round_decimal_exact.
Qed.

End RoundFacts.

(** ** Facts about reading numerals *)

Module NumeralFacts.

Import PyFloat Model.

Lemma plain_ascii (c : ascii) : plain c -> is_ascii c = true.
Proof.
  unfold plain, is_digit, is_ascii. intros [H | [-> | ->]]; [| reflexivity | reflexivity].
  apply andb_true_iff in H as [_ H]. apply Z.leb_le in H. apply Z.ltb_lt. lia.
Qed.

Lemma plain_no_space (c : ascii) : plain c -> is_space c = false.
Proof.
  unfold plain, is_digit, is_space. intros [H | [-> | ->]]; [| reflexivity | reflexivity].
  apply andb_true_iff in H as [H1 H2]. apply Z.leb_le in H1, H2.
  apply orb_false_iff. split.
  - apply andb_false_iff. right. apply Z.leb_gt. lia.
  - apply Z.eqb_neq. lia.
Qed.

Lemma plain_no_underscore (c : ascii) : plain c -> Ascii.eqb c "_" = false.
Proof.
  unfold plain, is_digit. intros [H | [-> | ->]]; [| reflexivity | reflexivity].
  apply Ascii.eqb_neq. intros ->. vm_compute in H. discriminate H.
Qed.

Lemma to_ascii_plain (l : chars) : Forall plain l -> to_ascii l = l.
Proof.
  intros H. unfold to_ascii.
  assert (Hall : forallb is_ascii l = true).
  { apply forallb_forall. intros c Hc. apply plain_ascii.
    now apply (proj1 (Forall_forall _ _) H). }
  now rewrite Hall.
Qed.

Lemma lstrip_plain (l : chars) : Forall plain l -> lstrip l = l.
Proof.
  intros H. destruct l as [| c l]; [reflexivity |].
  cbn. inversion H; subst. now rewrite plain_no_space.
Qed.

Lemma strip_plain (l : chars) : Forall plain l -> strip l = l.
Proof.
  intros H. unfold strip. rewrite (lstrip_plain l H).
  rewrite (lstrip_plain (rev l)) by now apply Forall_rev.
  apply rev_involutive.
Qed.

Lemma without_underscores_plain (l : chars) :
  Forall plain l -> without_underscores l = Some l.
Proof.
  intros H. unfold without_underscores, has_underscore.
  assert (Hno : existsb (fun c => Ascii.eqb c "_") l = false).
  { induction H as [| c l Hc _ IH]; [reflexivity |].
    cbn. now rewrite (plain_no_underscore c Hc), IH. }
  now rewrite Hno.
Qed.

Lemma sign_other (c : ascii) (s : chars) :
  c <> "-"%char -> c <> "+"%char -> sign (c :: s) = (false, c :: s).
Proof.
  intros H1 H2.
  destruct c as [[] [] [] [] [] [] [] []]; try reflexivity; congruence.
Qed.

Lemma digit_not_sign (c : ascii) :
  is_digit c = true -> c <> "-"%char /\ c <> "+"%char /\ c <> "."%char.
Proof.
  intros H. repeat split; intros ->; vm_compute in H; discriminate H.
Qed.

(** A run of digits is read to its end. *)
Lemma digits_run (ds rest : chars) (acc n : Z) :
  forallb is_digit ds = true ->
  match rest with
  | [] => True
  | c :: _ => is_digit c = false
  end ->
  digits (ds ++ rest) acc n =
  (fold_left (fun a c => 10 * a + digit_value c) ds acc, n + Z.of_nat (List.length ds), rest).
Proof.
  revert acc n. induction ds as [| d ds IH]; intros acc n Hds Hrest.
  - cbn [app fold_left List.length Z.of_nat]. rewrite Z.add_0_r.
    destruct rest as [| c rest]; [reflexivity |]. cbn. now rewrite Hrest.
  - cbn [forallb] in Hds. apply andb_true_iff in Hds as [Hd Hds].
    cbn [app digits]. rewrite Hd. rewrite (IH _ _ Hds Hrest).
    cbn [fold_left List.length]. f_equal. f_equal. lia.
Qed.

(** [float] reads a plain numeral as the double nearest to its value. *)
Theorem of_string_numeral (neg : bool) (ip fp : list ascii) :
  forallb is_digit ip = true ->
  forallb is_digit fp = true ->
  ip ++ fp <> [] ->
  of_string (numeral neg ip fp) =
  Some (round_decimal neg (digits_value (ip ++ fp)) (- Z.of_nat (List.length fp))).
Proof.
  intros Hip Hfp Hne.
  set (frac := match fp with [] => [] | _ :: _ => "."%char :: fp end).
  set (body := ip ++ frac).
  assert (Pip : Forall plain ip).
  { apply Forall_forall. intros c Hc. left.
    now apply (proj1 (forallb_forall _ _) Hip). }
  assert (Pfp : Forall plain fp).
  { apply Forall_forall. intros c Hc. left.
    now apply (proj1 (forallb_forall _ _) Hfp). }
  assert (Pfrac : Forall plain frac).
  { unfold frac. destruct fp; [constructor |]. constructor; [now right; right | assumption]. }
  assert (Pbody : Forall plain body) by (apply Forall_app; now split).
  assert (Ptxt : Forall plain ((if neg then ["-"%char] else []) ++ body)).
  { apply Forall_app. split; [| assumption].
    destruct neg; [constructor; [now right; left | constructor] | constructor]. }
  unfold of_string, numeral. fold frac. fold body.
  rewrite list_ascii_of_string_of_list_ascii.
  rewrite (to_ascii_plain _ Ptxt), (strip_plain _ Ptxt), (without_underscores_plain _ Ptxt).
  assert (Hstrtod :
    strtod ((if neg then ["-"%char] else []) ++ body) =
    Some (round_decimal neg (digits_value (ip ++ fp)) (- Z.of_nat (List.length fp)), [])).
  { unfold strtod.
    assert (Hsign : sign ((if neg then ["-"%char] else []) ++ body) = (neg, body)).
    { destruct neg; [reflexivity |]. cbn [app].
      unfold body. destruct ip as [| c ip'].
      - cbn [app]. unfold frac. destruct fp as [| c fp']; [now elim Hne |].
        reflexivity.
      - cbn [app]. cbn [forallb] in Hip. apply andb_true_iff in Hip as [Hc _].
        destruct (digit_not_sign c Hc) as [H1 [H2 _]]. now apply sign_other. }
    rewrite Hsign. unfold body.
    assert (Hfrac : match frac with [] => True | c :: _ => is_digit c = false end).
    { unfold frac. now destruct fp. }
    rewrite (digits_run ip frac 0 0 Hip Hfrac).
    unfold frac. destruct fp as [| c fp'].
    - assert (Hn : (0 + Z.of_nat (List.length ip) + 0 =? 0) = false).
      { apply Z.eqb_neq. destruct ip; [now elim Hne | cbn [List.length]; lia]. }
      rewrite Hn. cbn [exponent]. rewrite app_nil_r. reflexivity.
    - pose proof (digits_run (c :: fp') []
                    (fold_left (fun a c0 => 10 * a + digit_value c0) ip 0) 0 Hfp I) as Hd.
      rewrite app_nil_r in Hd. rewrite Hd.
      assert (Hn : (0 + Z.of_nat (List.length ip) + (0 + Z.of_nat (List.length (c :: fp'))) =? 0)
                   = false).
      { apply Z.eqb_neq. cbn [List.length]. lia. }
      rewrite Hn. cbn [exponent].
      unfold digits_value. rewrite fold_left_app.
      replace (0 - (0 + Z.of_nat (List.length (c :: fp')))) with
        (- Z.of_nat (List.length (c :: fp'))) by lia.
      reflexivity. }
  unfold string_to_double. now rewrite Hstrtod.
Qed.

(** A plain numeral whose value is exactly a double is read as that
    double. *)
Theorem float_exact (neg : bool) (ip fp : list ascii) (x : float) :
  forallb is_digit ip = true ->
  forallb is_digit fp = true ->
  ip ++ fp <> [] ->
  valid_binary prec emax x = true ->
  denotes x neg (digits_value (ip ++ fp)) (- Z.of_nat (List.length fp)) ->
  of_string (numeral neg ip fp) = Some x.
Proof.
  intros Hip Hfp Hne Hv Hd.
  rewrite (of_string_numeral neg ip fp Hip Hfp Hne).
  now rewrite (RoundFacts.round_decimal_denotes x neg _ _ Hv Hd).
Qed.

Example float_exact_half :
  of_string "0.5" = Some (S754_finite false 4503599627370496 (-53)).
Proof.
  apply (float_exact false ["0"%char] ["5"%char]); try reflexivity.
  - discriminate.
  - split; reflexivity.
Qed.

End NumeralFacts.

(** ** Facts about the reading loop *)

Module LoadFacts.
Import Py Script Model PyFacts.

Lemma getitem_lit {A : Type} (l : list A) (k : nat) (i : Z) :
  i = Z.of_nat k ->
  getitem l i = match nth_error l k with Some x => Ok x | None => Raise IndexError end.
Proof. intros ->. apply getitem_nat. Qed.

Ltac index_step :=
  first [ rewrite (getitem_lit _ 0 0 eq_refl) | rewrite (getitem_lit _ 1 1 eq_refl)
        | rewrite (getitem_lit _ 2 2 eq_refl) | rewrite (getitem_lit _ 3 3 eq_refl)
        | rewrite (getitem_lit _ 4 4 eq_refl) | rewrite (getitem_lit _ 5 5 eq_refl) ].

(** One turn of the loop. *)
Lemma load_row_spec (row_ : row) (s : store) :
  load_row row_ s =
  match comprehension float_ row_ with
  | Raise e => (Raise e, s)
  | Ok nums =>
      (if (6 <=? List.length nums)%nat then Ok tt else Raise IndexError,
       append_record nums s)
  end.
Proof.
  unfold load_row. unfold bind at 1. unfold lift at 1.
  destruct (comprehension float_ row_) as [nums | e]; [| reflexivity].
  destruct s as [t0 r0 y0 u0 lo0 up0 f0 sh0].
  destruct nums as [| x0 [| x1 [| x2 [| x3 [| x4 [| x5 tl]]]]]];
    unfold append_record;
    repeat (unfold bind at 1; unfold lift at 1; index_step;
            cbn [nth_error t_append r_append y_append u_append limit_under_append
                   limit_upper_append modify set_t set_r set_y set_u set_limit_under
                   set_limit_upper t r y u limit_under limit_upper fig1 shown]);
    cbn; rewrite ?app_nil_r; try reflexivity.

Qed.

Lemma slot {A : Type} (k : nat) (l : list A) :
  firstn 1 (skipn k l) =
  match nth_error l k with
  | Some x => [x]
  | None => []
  end.
Proof.
  revert l. induction k as [| k IH]; intros [| a l]; cbn; try reflexivity.
  apply IH.
Qed.

Lemma float_ok (v : string) (x : float) :
  float_ v = Ok x <-> PyFloat.of_string v = Some x.
Proof.
  unfold float_. destruct (PyFloat.of_string v); split; intros H;
    inversion H; subst; reflexivity.
Qed.

Lemma float_parses (v : string) :
  parses v = true -> exists x, float_ v = Ok x.
Proof.
  unfold parses, float_. destruct (PyFloat.of_string v) as [x |]; [| discriminate].
  intros _. now exists x.
Qed.

Lemma float_rejects (v : string) :
  parses v = false -> float_ v = Raise (ValueError (could_not_convert v)).
Proof.
  unfold parses, float_. now destruct (PyFloat.of_string v).
Qed.

(** The numbers of a record sit where its tokens sit. *)
Lemma cell_nums (row_ : row) (nums : list float) (k : nat) :
  comprehension float_ row_ = Ok nums ->
  firstn 1 (skipn k nums) = cell k row_.
Proof.
  intros H. rewrite slot. unfold cell, field.
  destruct (nth_error row_ k) as [v |] eqn:Hv.
  - destruct (comprehension_nth _ _ _ H k v Hv) as [x [Hx Hk]].
    apply float_ok in Hx. now rewrite Hk, Hx.
  - apply nth_error_None in Hv.
    rewrite <- (comprehension_length _ _ _ H) in Hv.
    apply nth_error_None in Hv. now rewrite Hv.
Qed.

Lemma column_snoc (k : nat) (rows : list row) (row_ : row) :
  column k (rows ++ [row_]) = column k rows ++ cell k row_.
Proof.
  unfold column. rewrite flat_map_app. cbn. now rewrite app_nil_r.
Qed.

Lemma append_record_columns (rows : list row) (row_ : row) (nums : list float)
    (s : store) :
  comprehension float_ row_ = Ok nums ->
  append_record nums (columns_store rows s) = columns_store (rows ++ [row_]) s.
Proof.
  intros H. unfold append_record, columns_store.
  cbn [t r y u limit_under limit_upper fig1 shown].
  rewrite !column_snoc.
  change (firstn 1 nums) with (firstn 1 (skipn 0 nums)).
  now rewrite !(cell_nums _ _ _ H).
Qed.

Lemma valid_row_nums (row_ : row) :
  valid_row row_ = true ->
  exists nums, comprehension float_ row_ = Ok nums /\ (6 <= List.length nums)%nat.
Proof.
  unfold valid_row. intros H. apply andb_true_iff in H as [Hlen Hall].
  apply Nat.leb_le in Hlen.
  destruct (comprehension_ok float_ row_) as [nums Hnums].
  - intros v Hv. apply float_parses.
    rewrite forallb_forall in Hall. now apply Hall.
  - exists nums. split; [assumption |].
    now rewrite (comprehension_length _ _ _ Hnums).
Qed.

(** The loop over records that are all valid. *)
Lemma for_valid (rows pre : list row) (s : store) :
  forallb valid_row rows = true ->
  for_ rows load_row (columns_store pre s) = (Ok tt, columns_store (pre ++ rows) s).
Proof.
  revert pre. induction rows as [| row_ rows IH]; intros pre H.
  - now rewrite app_nil_r.
  - cbn in H. apply andb_true_iff in H as [Hrow Hrows].
    destruct (valid_row_nums _ Hrow) as [nums [Hnums Hlen]].
    cbn [for_]. unfold bind at 1. rewrite load_row_spec, Hnums.
    apply Nat.leb_le in Hlen. rewrite Hlen.
    rewrite (append_record_columns _ _ _ _ Hnums), (IH _ Hrows).
    now rewrite <- app_assoc.
Qed.

(** The loop stops at the first record that raises. *)
Lemma for_stops (rows rest : list row) (bad : row) (pre : list row) (s s' : store)
    (e : exn) :
  forallb valid_row rows = true ->
  load_row bad (columns_store (pre ++ rows) s) = (Raise e, s') ->
  for_ (rows ++ bad :: rest) load_row (columns_store pre s) = (Raise e, s').
Proof.
  revert pre. induction rows as [| row_ rows IH]; intros pre H Hbad.
  - rewrite app_nil_r in Hbad. cbn [app for_]. unfold bind at 1. now rewrite Hbad.
  - cbn in H. apply andb_true_iff in H as [Hrow Hrows].
    destruct (valid_row_nums _ Hrow) as [nums [Hnums Hlen]].
    cbn [app for_]. unfold bind at 1. rewrite load_row_spec, Hnums.
    apply Nat.leb_le in Hlen. rewrite Hlen.
    rewrite (append_record_columns _ _ _ _ Hnums).
    apply IH; [assumption |]. now rewrite <- app_assoc.
Qed.

Lemma bind_ret_tt (c : M unit) (s : store) :
  bind c (fun _ => ret tt) s = c s.
Proof. unfold bind, ret. now destruct (c s) as [[[] | e] s']. Qed.

(** Reading a file whose reader yields [rows] and stops. *)
Lemma loaded_rows (rows : list row) :
  loaded (with_rows rows) = for_ rows load_row (columns_store [] empty_store).
Proof.
  change (loaded (with_rows rows)) with
    (bind (for_ rows load_row) (fun _ => ret tt) (columns_store [] empty_store)).
  apply bind_ret_tt.
Qed.

(** Reading a file whose reader yields [rows] and then raises [e]. *)
Lemma loaded_failing (rows : list row) (e : exn) :
  loaded (with_reading (mkReading rows (Some e))) =
  match for_ rows load_row (columns_store [] empty_store) with
  | (Ok _, s') => (Raise e, s')
  | (Raise e', s') => (Raise e', s')
  end.
Proof. reflexivity. Qed.

Lemma loaded_no_file (fs : filesystem) :
  fs "./result.csv" = None ->
  loaded fs = (Raise (OSError "./result.csv"), empty_store).
Proof.
  intros H. unfold loaded, load, open_reader, bind. cbn. now rewrite H.
Qed.

Example loaded_without_file :
  loaded no_file = (Raise (OSError "./result.csv"), empty_store).
Proof. now apply loaded_no_file. Qed.

Lemma loaded_reading (fs : filesystem) (reader : reading) :
  fs "./result.csv" = Some reader -> loaded fs = loaded (with_reading reader).
Proof.
  intros H. unfold loaded, load, open_reader, bind. cbn. now rewrite H.
Qed.

Lemma loaded_file (fs : filesystem) (rows : list row) :
  fs "./result.csv" = Some (mkReading rows None) -> loaded fs = loaded (with_rows rows).
Proof. apply loaded_reading. Qed.

Lemma loaded_valid (rows : list row) :
  forallb valid_row rows = true ->
  loaded (with_rows rows) = (Ok tt, columns_store rows empty_store).
Proof.
  intros H. rewrite loaded_rows. now rewrite (for_valid rows [] empty_store H).
Qed.

(** A record that is too short: the numbers it has are appended, then
    the missing one raises. *)
Lemma loaded_short (pre rest : list row) (short : row) :
  forallb valid_row pre = true ->
  forallb parses short = true ->
  (List.length short < 6)%nat ->
  loaded (with_rows (pre ++ short :: rest)) =
  (Raise IndexError, columns_store (pre ++ [short]) empty_store).
Proof.
  intros Hpre Hall Hlen. rewrite loaded_rows.
  apply for_stops; [assumption |]. cbn [app].
  destruct (comprehension_ok float_ short) as [nums Hnums].
  { intros v Hv. apply float_parses. rewrite forallb_forall in Hall. now apply Hall. }
  rewrite load_row_spec, Hnums.
  rewrite (comprehension_length _ _ _ Hnums).
  assert (Hshort : (6 <=? List.length short)%nat = false) by (apply Nat.leb_gt; lia).
  rewrite Hshort. now rewrite (append_record_columns _ _ _ _ Hnums).
Qed.

(** A record with a token that is no number: nothing of it is
    appended. *)
Lemma loaded_unparseable (pre rest : list row) (good more : list string) (v : string) :
  forallb valid_row pre = true ->
  forallb parses good = true ->
  parses v = false ->
  loaded (with_rows (pre ++ (good ++ v :: more) :: rest)) =
  (Raise (ValueError (could_not_convert v)), columns_store pre empty_store).
Proof.
  intros Hpre Hgood Hv. rewrite loaded_rows.
  apply for_stops; [assumption |]. cbn [app].
  rewrite load_row_spec.
  rewrite (comprehension_raise float_ good v more (ValueError (could_not_convert v))).
  - reflexivity.
  - intros w Hw. apply float_parses. rewrite forallb_forall in Hgood. now apply Hgood.
  - now apply float_rejects.
Qed.

(** Where a list of tokens first fails to parse. *)
Lemma first_unparseable (l : list string) :
  forallb parses l = false ->
  exists good v more,
    l = good ++ v :: more /\ forallb parses good = true /\ parses v = false.
Proof.
  induction l as [| a l IH]; intros H; [discriminate |].
  cbn in H. destruct (parses a) eqn:Ha.
  - destruct (IH H) as [good [v [more [-> [Hg Hv]]]]].
    exists (a :: good), v, more. cbn. now rewrite Ha, Hg.
  - exists [], a, l. now repeat split.
Qed.

(** Where a file first has a record that is not valid. *)
Lemma first_invalid (rows : list row) :
  forallb valid_row rows = false ->
  exists pre bad rest,
    rows = pre ++ bad :: rest /\ forallb valid_row pre = true /\ valid_row bad = false.
Proof.
  induction rows as [| a rows IH]; intros H; [discriminate |].
  cbn in H. destruct (valid_row a) eqn:Ha.
  - destruct (IH H) as [pre [bad [rest [-> [Hp Hb]]]]].
    exists (a :: pre), bad, rest. cbn. now rewrite Ha, Hp.
  - exists [], a, rows. now repeat split.
Qed.

(** The columns of valid records. *)
Lemma cell_valid (k : nat) (row_ : row) :
  valid_row row_ = true -> (k < 6)%nat -> exists x, field k row_ = Some x.
Proof.
  intros H Hk. destruct (valid_row_nums _ H) as [nums [Hnums Hlen]].
  unfold valid_row in H. apply andb_true_iff in H as [Hl _]. apply Nat.leb_le in Hl.
  unfold field. destruct (nth_error row_ k) as [v |] eqn:Hv.
  - destruct (comprehension_nth _ _ _ Hnums k v Hv) as [x [Hx _]].
    exists x. now apply float_ok.
  - apply nth_error_None in Hv. lia.
Qed.

Lemma column_valid (k : nat) (rows : list row) :
  forallb valid_row rows = true -> (k < 6)%nat ->
  List.length (column k rows) = List.length rows /\
  forall i row_, nth_error rows i = Some row_ ->
                 nth_error (column k rows) i = field k row_.
Proof.
  intros H Hk. induction rows as [| a rows IH].
  - split; [reflexivity |]. intros [| i] row_ Hi; discriminate.
  - cbn in H. apply andb_true_iff in H as [Ha Hrows].
    destruct (IH Hrows) as [IHlen IHnth].
    destruct (cell_valid k a Ha Hk) as [x Hx].
    assert (Hcons : column k (a :: rows) = x :: column k rows).
    { unfold column. cbn [flat_map]. unfold cell at 1. now rewrite Hx. }
    rewrite Hcons.
    split; [cbn [List.length]; now rewrite IHlen |].
    intros [| i] row_ Hi; cbn [nth_error] in Hi |- *.
    + inversion Hi; subst. now rewrite Hx.
    + now apply IHnth.
Qed.

(** *** Every way the reading can end *)

Lemma loaded_with_reading (reader : reading) :
  loaded (with_reading reader) =
  match for_ (rows_of reader) load_row (columns_store [] empty_store) with
  | (Ok _, s') =>
      (match failure reader with
       | Some e => Raise e
       | None => Ok tt
       end, s')
  | (Raise e', s') => (Raise e', s')
  end.
Proof.
  change (loaded (with_reading reader)) with
    (bind (for_ (rows_of reader) load_row)
       (fun _ => match failure reader with
                 | Some e => lift (Raise e)
                 | None => ret tt
                 end) (columns_store [] empty_store)).
  unfold bind.
  destruct (for_ (rows_of reader) load_row (columns_store [] empty_store)) as [[[] | e'] s'];
    [now destruct (failure reader) | reflexivity].
Qed.

(** The reading ends in one of three ways: every record is valid and the
    reader stops or raises; or the first record that is not valid is too
    short; or it has a token that is no number. *)
Lemma loaded_reading_cases (reader : reading) :
  (forallb valid_row (rows_of reader) = true /\
   loaded (with_reading reader) =
   (match failure reader with
    | Some e => Raise e
    | None => Ok tt
    end, columns_store (rows_of reader) empty_store)) \/
  (exists pre bad rest,
     rows_of reader = pre ++ bad :: rest /\ forallb valid_row pre = true /\
     ((forallb parses bad = true /\ (List.length bad < 6)%nat /\
       loaded (with_reading reader) =
       (Raise IndexError, columns_store (pre ++ [bad]) empty_store)) \/
      (exists good v more,
         bad = good ++ v :: more /\ forallb parses good = true /\ parses v = false /\
         loaded (with_reading reader) =
         (Raise (ValueError (could_not_convert v)), columns_store pre empty_store)))).
Proof.
  rewrite loaded_with_reading.
  destruct (forallb valid_row (rows_of reader)) eqn:Hrows.
  - left. split; [reflexivity |].
    rewrite <- loaded_rows, (loaded_valid _ Hrows). reflexivity.
  - right. destruct (first_invalid _ Hrows) as [pre [bad [rest [Heq [Hpre Hbad]]]]].
    exists pre, bad, rest. split; [assumption |]. split; [assumption |].
    rewrite Heq, <- loaded_rows.
    destruct (forallb parses bad) eqn:Hall.
    + left. assert (Hlen : (List.length bad < 6)%nat).
      { unfold valid_row in Hbad. rewrite Hall, andb_true_r in Hbad.
        now apply Nat.leb_gt in Hbad. }
      split; [reflexivity |]. split; [assumption |].
      now rewrite (loaded_short pre rest bad Hpre Hall Hlen).
    + right. destruct (first_unparseable bad Hall) as [good [v [more [Hb [Hgood Hv]]]]].
      assert (E : loaded (with_rows (pre ++ bad :: rest)) =
                  (Raise (ValueError (could_not_convert v)), columns_store pre empty_store))
        by (rewrite Hb; exact (loaded_unparseable pre rest good more v Hpre Hgood Hv)).
      rewrite E. exists good, v, more. now repeat split.
Qed.

End LoadFacts.


(** ** Facts about drawing *)

Module RenderFacts.
Import Py Script Model PyFacts.

Lemma table_ends (n : nat) (s : store) :
  is_table n s -> (1 <= n)%nat ->
  exists x0 xN, nth_error (t s) 0 = Some x0 /\ nth_error (t s) (n - 1) = Some xN.
Proof.
  intros [Ht _] Hn.
  destruct (nth_error (t s) 0) as [x0 |] eqn:H0;
    [| apply nth_error_None in H0; lia].
  destruct (nth_error (t s) (n - 1)) as [xN |] eqn:HN;
    [| apply nth_error_None in HN; lia].
  now exists x0, xN.
Qed.

Ltac table_facts t0 r0 y0 u0 lo0 up0 Ht Hr Hy Hu Hlo Hup :=
  assert (Er : Nat.eqb (List.length t0) (List.length r0) = true)
    by (apply Nat.eqb_eq; congruence);
  assert (Ey : Nat.eqb (List.length t0) (List.length y0) = true)
    by (apply Nat.eqb_eq; congruence);
  assert (Eu : Nat.eqb (List.length t0) (List.length u0) = true)
    by (apply Nat.eqb_eq; congruence);
  assert (Elo : Nat.eqb (List.length t0) (List.length lo0) = true)
    by (apply Nat.eqb_eq; congruence);
  assert (Eup : Nat.eqb (List.length t0) (List.length up0) = true)
    by (apply Nat.eqb_eq; congruence).

Ltac unfold_render :=
  unfold render, panel_a, panel_b, plt_figure, plt_suptitle, plt_show, add_subplot,
    on_axes, bind, get, lift, modify, gcf, Mpl.step, Mpl.add_line, Mpl.set_xlim,
    Mpl.validate_converted_limits.

(** Drawing a table that has at least one record and whose first and last
    times are finite. *)
Lemma render_table (n : nat) (s : store) (x0 xN : float) :
  is_table n s ->
  nth_error (t s) 0 = Some x0 ->
  nth_error (t s) (n - 1) = Some xN ->
  PyFloat.is_finite x0 = true ->
  PyFloat.is_finite xN = true ->
  render s =
  (Ok tt, set_shown (Some (drawn_figure s x0 xN)) (set_fig1 (Some (drawn_figure s x0 xN)) s)).
Proof.
  intros (Ht & Hr & Hy & Hu & Hlo & Hup) H0 HN F0 FN.
  destruct s as [t0 r0 y0 u0 lo0 up0 f0 sh0]. cbn [t r y u limit_under limit_upper] in *.
  assert (Hne : t0 <> []) by (intros ->; discriminate).
  assert (E0 : getitem t0 0 = Ok x0)
    by (pose proof (getitem_nat t0 0) as G; cbn [Z.of_nat] in G; now rewrite G, H0).
  assert (EN : getitem t0 (-1) = Ok xN)
    by (apply getitem_minus_one; [now rewrite Ht | assumption]).
  table_facts t0 r0 y0 u0 lo0 up0 Ht Hr Hy Hu Hlo Hup.
  unfold_render. unfold drawn_figure.
  repeat (cbn -[getitem Mpl.view_limits PyFloat.is_finite fst snd];
          rewrite ?E0, ?EN, ?Er, ?Ey, ?Eu, ?Elo, ?Eup, ?F0, ?FN).
  destruct (Mpl.view_limits x0 xN) as [a b]. reflexivity.
Qed.

(** Drawing a table whose first or last time is not finite: [set_xlim]
    raises on the first panel, which has its two lines by then. *)
Lemma render_stopped (n : nat) (s : store) (x0 xN : float) :
  is_table n s ->
  nth_error (t s) 0 = Some x0 ->
  nth_error (t s) (n - 1) = Some xN ->
  PyFloat.is_finite x0 && PyFloat.is_finite xN = false ->
  render s = (Raise (ValueError limits_not_finite), set_fig1 (Some (stopped_figure s)) s).
Proof.
  intros (Ht & Hr & Hy & Hu & Hlo & Hup) H0 HN Hfin.
  destruct s as [t0 r0 y0 u0 lo0 up0 f0 sh0]. cbn [t r y u limit_under limit_upper] in *.
  assert (Hne : t0 <> []) by (intros ->; discriminate).
  assert (E0 : getitem t0 0 = Ok x0)
    by (pose proof (getitem_nat t0 0) as G; cbn [Z.of_nat] in G; now rewrite G, H0).
  assert (EN : getitem t0 (-1) = Ok xN)
    by (apply getitem_minus_one; [now rewrite Ht | assumption]).
  table_facts t0 r0 y0 u0 lo0 up0 Ht Hr Hy Hu Hlo Hup.
  unfold_render. unfold stopped_figure.
  destruct (PyFloat.is_finite x0) eqn:F0; [destruct (PyFloat.is_finite xN) eqn:FN |];
    try discriminate Hfin;
    repeat (cbn -[getitem Mpl.view_limits PyFloat.is_finite];
            rewrite ?E0, ?EN, ?Er, ?Ey, ?Eu, ?Elo, ?Eup, ?F0, ?FN);
    reflexivity.
Qed.

Lemma getitem_minus_one_inv {A : Type} (l : list A) (x : A) :
  getitem l (-1) = Ok x -> nth_error l (List.length l - 1) = Some x.
Proof.
  intros H. destruct l as [| a l]; [rewrite getitem_empty in H; discriminate H |].
  destruct (nth_error (a :: l) (List.length (a :: l) - 1)) as [z |] eqn:Hz.
  - rewrite (getitem_minus_one (a :: l) z Hz) in H by discriminate. congruence.
  - apply nth_error_None in Hz. cbn [List.length] in Hz. lia.
Qed.

Lemma getitem_zero_inv {A : Type} (l : list A) (x : A) :
  getitem l 0 = Ok x -> nth_error l 0 = Some x.
Proof.
  intros H. pose proof (getitem_nat l 0) as G. cbn [Z.of_nat] in G.
  rewrite G in H. destruct (nth_error l 0); congruence.
Qed.

(** Drawing an empty table: the figure, its title, the first panel and
    its two lines are made; then [t[0]] raises. *)
Lemma render_empty (s : store) :
  is_table 0 s ->
  render s = (Raise IndexError, set_fig1 (Some unfinished_figure) s).
Proof.
  intros (Ht & Hr & Hy & Hu & Hlo & Hup).
  destruct s as [t0 r0 y0 u0 lo0 up0 f0 sh0]. cbn [t r y u limit_under limit_upper] in *.
  apply length_zero_iff_nil in Ht, Hr, Hy. subst t0 r0 y0.
  reflexivity.
Qed.

(** *** Step paths *)

Lemma same_refl (a : float) : Mpl.same a a = true.
Proof.
  unfold Mpl.same, SFeqb.
  destruct a as [s | s | | s m e]; cbn; try reflexivity.
  - now destruct s.
  - rewrite Z.compare_refl, Pos.compare_cont_refl. now destruct s.
Qed.

Lemma prestep_cons (x0 x1 : float) (xs : list float) (y0 y1 : float) (ys : list float) :
  Mpl.pts_to_prestep (x0 :: x1 :: xs) (y0 :: y1 :: ys) =
  (x0, y0) :: (x0, y1) :: Mpl.pts_to_prestep (x1 :: xs) (y1 :: ys).
Proof. reflexivity. Qed.

Lemma prestep_head (x0 : float) (xs : list float) (y0 : float) (ys : list float) :
  exists rest, Mpl.pts_to_prestep (x0 :: xs) (y0 :: ys) = (x0, y0) :: rest.
Proof.
  destruct xs as [| x1 xs]; [now exists [] |].
  destruct ys as [| y1 ys]; [now exists [] |].
  rewrite prestep_cons. eauto.
Qed.

(** Sample [i + 1] is held from the time of sample [i] to its own. *)
Lemma prestep_holds (x y : list float) (i : nat) (a b v : float) :
  nth_error x i = Some a ->
  nth_error x (S i) = Some b ->
  nth_error y (S i) = Some v ->
  In ((a, v), (b, v)) (Mpl.segments (Mpl.pts_to_prestep x y)).
Proof.
  revert x y. induction i as [| i IH]; intros x y Ha Hb Hv.
  - destruct x as [| x0 [| x1 xs]]; try discriminate.
    destruct y as [| y0 [| y1 ys]]; try discriminate.
    cbn in Ha, Hb, Hv. inversion Ha; inversion Hb; inversion Hv; subst.
    rewrite prestep_cons.
    destruct (prestep_head b xs v ys) as [rest ->].
    cbn. right. now left.
  - destruct x as [| x0 [| x1 xs]]; try discriminate.
    destruct y as [| y0 [| y1 ys]]; try discriminate.
    rewrite prestep_cons.
    destruct (prestep_head x1 xs y1 ys) as [rest Hrest].
    specialize (IH (x1 :: xs) (y1 :: ys) Ha Hb Hv).
    rewrite Hrest in IH |- *.
    cbn [Mpl.segments]. right. right. exact IH.
Qed.

(** A step path has no slanted piece. *)
Lemma prestep_axis_parallel (x y : list float) :
  Forall (fun seg => Mpl.horizontal seg = true \/ Mpl.vertical seg = true)
         (Mpl.segments (Mpl.pts_to_prestep x y)).
Proof.
  revert y. induction x as [| x0 xs IH]; intros y; [constructor |].
  destruct xs as [| x1 xs]; [destruct y; cbn; constructor |].
  destruct y as [| y0 [| y1 ys]]; [cbn; constructor | cbn; constructor |].
  rewrite prestep_cons.
  specialize (IH (y1 :: ys)).
  destruct (prestep_head x1 xs y1 ys) as [rest Hrest].
  rewrite Hrest in IH |- *.
  cbn [Mpl.segments].
  constructor; [right; apply same_refl |].
  constructor; [left; apply same_refl | exact IH].
Qed.

(** *** Limits that are kept *)

Lemma view_limits_kept (left right : float) :
  kept_limits left right = true -> Mpl.view_limits left right = (left, right).
Proof.
  unfold kept_limits, Mpl.view_limits, Mpl.nonsingular, Mpl.sorted_pair.
  intros H. apply andb_true_iff in H as [H Hfar]. apply andb_true_iff in H as [H Hbig].
  apply andb_true_iff in H as [Fl Fr].
  apply negb_true_iff in Hfar, Hbig.
  rewrite Fl, Fr. cbn [negb orb].
  destruct (PyFloat.ltb right left) eqn:Hsw; rewrite Hbig, Hfar, ?Hsw; reflexivity.
Qed.

Lemma kept_limits_finite (left right : float) :
  kept_limits left right = true ->
  PyFloat.is_finite left = true /\ PyFloat.is_finite right = true.
Proof.
  unfold kept_limits. intros H.
  apply andb_true_iff in H as [H _]. apply andb_true_iff in H as [H _].
  now apply andb_true_iff in H.
Qed.

End RenderFacts.


(** ** The claims *)

Module Claims.
Import Py Script Model PyFacts LoadFacts RenderFacts.

(** When loading raises, the script ends there. *)
Lemma run_load_raises (fs : filesystem) (e : exn) (s : store) :
  loaded fs = (Raise e, s) -> run fs = (Raise e, s).
Proof.
  change (loaded fs) with (load fs empty_store).
  change (run fs) with (bind (load fs) (fun _ => render) empty_store).
  intros H. unfold bind. now rewrite H.
Qed.

(** When loading succeeds, the script goes on to draw. *)
Lemma run_load_ok (fs : filesystem) (s : store) :
  loaded fs = (Ok tt, s) -> run fs = render s.
Proof.
  change (loaded fs) with (load fs empty_store).
  change (run fs) with (bind (load fs) (fun _ => render) empty_store).
  intros H. unfold bind. now rewrite H.
Qed.

Lemma columns_table (rows : list row) (s : store) :
  forallb valid_row rows = true ->
  is_table (List.length rows) (columns_store rows s).
Proof.
  intros H. unfold is_table, columns_store. cbn [t r y u limit_under limit_upper].
  repeat split; apply column_valid; try assumption; lia.
Qed.

(** *** The columns of a valid file *)

Lemma list_of_column (k : nat) (rows : list row) (s : store) :
  (k < 6)%nat -> nth k (lists_of (columns_store rows s)) [] = column k rows.
Proof.
  intros Hk. do 6 (destruct k as [| k]; [reflexivity |]). lia.
Qed.

(** C1, as stated, fails: both records of this file have six numeric
    fields, the second one also a seventh field that is no number;
    loading raises, and the lists hold one record, not two. *)
Lemma C1_counterexample :
  Forall (fun row_ => (6 <= List.length row_)%nat /\ forallb parses (firstn 6 row_) = true)
         record_with_note /\
  fst (loaded (with_rows record_with_note)) = Raise (ValueError (could_not_convert "n/a")) /\
  List.length (t (snd (loaded (with_rows record_with_note)))) = 1%nat /\
  List.length record_with_note = 2%nat.
Proof.
  split; [repeat constructor |].
  split; [vm_compute; reflexivity |].
  split; reflexivity.
Qed.

(** C1, amended. For a file of N records, each with six fields or more
    that are all numeric (the fields beyond the sixth too), loading
    succeeds, leaves six lists of length N, and the element at index i of
    each list is the number [float] reads in the matching field of
    record i: nothing is sorted, dropped or reordered.  A field written as
    a plain decimal numeral whose value is exactly a double is loaded as
    exactly that double. *)
Theorem C1_load_columns (rows : list row) :
  forallb valid_row rows = true ->
  exists s,
    loaded (with_rows rows) = (Ok tt, s) /\
    is_table (List.length rows) s /\
    forall i row_,
      nth_error rows i = Some row_ ->
      (nth_error (t s) i = field 0 row_ /\
       nth_error (r s) i = field 1 row_ /\
       nth_error (y s) i = field 2 row_ /\
       nth_error (u s) i = field 3 row_ /\
       nth_error (limit_under s) i = field 4 row_ /\
       nth_error (limit_upper s) i = field 5 row_) /\
      (forall k neg ip fp x,
         (k < 6)%nat ->
         nth_error row_ k = Some (numeral neg ip fp) ->
         forallb PyFloat.is_digit ip = true ->
         forallb PyFloat.is_digit fp = true ->
         ip ++ fp <> [] ->
         valid_binary PyFloat.prec PyFloat.emax x = true ->
         denotes x neg (digits_value (ip ++ fp)) (- Z.of_nat (List.length fp)) ->
         nth_error (nth k (lists_of s) []) i = Some x).
Proof.
  intros H. exists (columns_store rows empty_store).
  split; [now apply loaded_valid |].
  split; [now apply columns_table |].
  intros i row_ Hi. split.
  - cbn [columns_store t r y u limit_under limit_upper].
    repeat split; apply column_valid; try assumption; lia.
  - intros k neg ip fp x Hk Htok Hip Hfp Hne Hv Hd.
    rewrite (list_of_column k rows empty_store Hk).
    rewrite (proj2 (column_valid k rows H Hk) i row_ Hi).
    unfold field. rewrite Htok.
    now apply NumeralFacts.float_exact.
Qed.

Lemma C1_load_columns_witness :
  forallb valid_row three_records = true /\
  exists s,
    loaded (with_rows three_records) = (Ok tt, s) /\
    is_table (List.length three_records) s /\
    forall i row_,
      nth_error three_records i = Some row_ ->
      (nth_error (t s) i = field 0 row_ /\
       nth_error (r s) i = field 1 row_ /\
       nth_error (y s) i = field 2 row_ /\
       nth_error (u s) i = field 3 row_ /\
       nth_error (limit_under s) i = field 4 row_ /\
       nth_error (limit_upper s) i = field 5 row_) /\
      (forall k neg ip fp x,
         (k < 6)%nat ->
         nth_error row_ k = Some (numeral neg ip fp) ->
         forallb PyFloat.is_digit ip = true ->
         forallb PyFloat.is_digit fp = true ->
         ip ++ fp <> [] ->
         valid_binary PyFloat.prec PyFloat.emax x = true ->
         denotes x neg (digits_value (ip ++ fp)) (- Z.of_nat (List.length fp)) ->
         nth_error (nth k (lists_of s) []) i = Some x).
Proof.
  split; [vm_compute; reflexivity |].
  apply (C1_load_columns three_records). vm_compute. reflexivity.
Defined.

(** In the scenario, the output 0.5 of the second record is loaded as the
    double one half, 2^52 * 2^-53. *)
Example half_is_loaded_exactly :
  exists s,
    loaded (with_rows three_records) = (Ok tt, s) /\
    nth_error (y s) 1 = Some (S754_finite false 4503599627370496 (-53)).
Proof.
  eexists. split; [vm_compute; reflexivity | reflexivity].
Qed.

(** *** Extra fields *)

Lemma field_firstn (k : nat) (row_ : row) :
  (k < 6)%nat -> field k (firstn 6 row_) = field k row_.
Proof.
  intros Hk. unfold field. rewrite nth_error_firstn.
  assert (H : (k <? 6)%nat = true) by now apply Nat.ltb_lt.
  now rewrite H.
Qed.

Lemma column_firstn (k : nat) (rows : list row) :
  (k < 6)%nat -> column k (map (firstn 6) rows) = column k rows.
Proof.
  intros Hk. unfold column. induction rows as [| a rows IH]; [reflexivity |].
  cbn [map flat_map]. rewrite IH. unfold cell. now rewrite field_firstn.
Qed.

Lemma forallb_firstn {A : Type} (p : A -> bool) (n : nat) (l : list A) :
  forallb p l = true -> forallb p (firstn n l) = true.
Proof.
  revert n. induction l as [| a l IH]; intros [| n] H; try reflexivity.
  cbn in H |- *. apply andb_true_iff in H as [Ha Hl].
  now rewrite Ha, (IH n Hl).
Qed.

Lemma valid_firstn (rows : list row) :
  forallb valid_row rows = true -> forallb valid_row (map (firstn 6) rows) = true.
Proof.
  induction rows as [| a rows IH]; intros H; [reflexivity |].
  cbn [forallb map] in H |- *. apply andb_true_iff in H as [Ha Hrows].
  rewrite (IH Hrows), andb_true_r.
  unfold valid_row in Ha |- *. apply andb_true_iff in Ha as [Hlen Hall].
  apply Nat.leb_le in Hlen.
  rewrite (forallb_firstn _ _ _ Hall), andb_true_r.
  apply Nat.leb_le. rewrite length_firstn. lia.
Qed.

(** C7, as stated, fails: a record of six numbers followed by a seventh
    field that is no number (here the unit "N") makes loading raise,
    although the same record cut to six fields loads. *)
Lemma C7_counterexample :
  Forall (fun row_ => (6 <= List.length row_)%nat) record_with_unit /\
  fst (loaded (with_rows record_with_unit)) = Raise (ValueError (could_not_convert "N")) /\
  fst (loaded (with_rows (map (firstn 6) record_with_unit))) = Ok tt.
Proof.
  split; [repeat constructor |].
  split; vm_compute; reflexivity.
Qed.

(** C7, amended. For a file whose records each have six fields or more,
    all of them numbers (the extra ones too), loading succeeds and
    leaves the same lists as loading the file with every record cut to
    its first six fields. *)
Theorem C7_extra_fields (rows : list row) :
  forallb valid_row rows = true ->
  exists s,
    loaded (with_rows rows) = (Ok tt, s) /\
    loaded (with_rows (map (firstn 6) rows)) = (Ok tt, s).
Proof.
  intros H. exists (columns_store rows empty_store).
  split; [now apply loaded_valid |].
  rewrite (loaded_valid _ (valid_firstn _ H)).
  unfold columns_store. now rewrite !column_firstn by lia.
Qed.

Lemma C7_extra_fields_witness :
  forallb valid_row [["0"; "1"; "0"; "0"; "-5"; "5"; "7"; "8"]] = true /\
  exists s,
    loaded (with_rows [["0"; "1"; "0"; "0"; "-5"; "5"; "7"; "8"]]) = (Ok tt, s) /\
    loaded (with_rows (map (firstn 6) [["0"; "1"; "0"; "0"; "-5"; "5"; "7"; "8"]]))
    = (Ok tt, s).
Proof.
  split; [vm_compute; reflexivity |].
  apply (C7_extra_fields [["0"; "1"; "0"; "0"; "-5"; "5"; "7"; "8"]]).
  vm_compute. reflexivity.
Defined.

(** *** Records that are too short *)

(** C4, as stated, fails: a short record at index 0 and a short record
    at index 1 raise the very same exception, so no record index can be
    read off it. *)
Lemma C4_counterexample :
  fst (loaded (with_rows [["1"; "2"]])) = Raise IndexError /\
  fst (loaded (with_rows [good_record; ["1"; "2"]])) = Raise IndexError /\
  ~ exists record_index : exn -> nat,
      forall pre short rest,
        forallb valid_row pre = true ->
        forallb parses short = true ->
        (List.length short < 6)%nat ->
        exists e,
          fst (loaded (with_rows (pre ++ short :: rest))) = Raise e /\
          record_index e = List.length pre.
Proof.
  split; [vm_compute; reflexivity |].
  split; [vm_compute; reflexivity |].
  intros [record_index H].
  destruct (H [] ["1"; "2"] []) as [e0 [He0 Hk0]];
    [reflexivity | vm_compute; reflexivity | cbn; lia |].
  destruct (H [good_record] ["1"; "2"] []) as [e1 [He1 Hk1]];
    [vm_compute; reflexivity | vm_compute; reflexivity | cbn; lia |].
  vm_compute in He0, He1.
  inversion He0; inversion He1; subst. cbn in Hk0, Hk1. congruence.
Qed.

(** C4, amended. When the first record that is not valid has fewer than
    six tokens, all of them numbers, loading raises [IndexError], which
    names no record; the script ends there, whatever follows in the
    file.  The lists then hold the records before it and the fields the
    short record has. *)
Theorem C4_short_record (pre rest : list row) (short : row) :
  forallb valid_row pre = true ->
  forallb parses short = true ->
  (List.length short < 6)%nat ->
  loaded (with_rows (pre ++ short :: rest)) =
    (Raise IndexError, columns_store (pre ++ [short]) empty_store) /\
  run (with_rows (pre ++ short :: rest)) =
    (Raise IndexError, columns_store (pre ++ [short]) empty_store).
Proof.
  intros Hpre Hall Hlen.
  assert (H := loaded_short pre rest short Hpre Hall Hlen).
  split; [exact H | now apply run_load_raises].
Qed.

Lemma C4_short_record_witness :
  forallb valid_row [good_record] = true /\
  forallb parses ["1"; "2"] = true /\
  (List.length ["1"; "2"] < 6)%nat /\
  loaded (with_rows ([good_record] ++ ["1"; "2"] :: [good_record])) =
    (Raise IndexError, columns_store ([good_record] ++ [["1"; "2"]]) empty_store) /\
  run (with_rows ([good_record] ++ ["1"; "2"] :: [good_record])) =
    (Raise IndexError, columns_store ([good_record] ++ [["1"; "2"]]) empty_store).
Proof.
  split; [vm_compute; reflexivity |].
  split; [vm_compute; reflexivity |].
  split; [cbn; lia |].
  apply (C4_short_record [good_record] [good_record] ["1"; "2"]);
    [vm_compute; reflexivity | vm_compute; reflexivity | cbn; lia].
Defined.

(** *** Tokens that are no numbers *)

(** C5, as stated, fails: the token "abc" at record 0, position 0 and
    at record 1, position 3 raises the very same exception, so neither
    the record nor the position can be read off it. *)
Lemma C5_counterexample :
  fst (loaded (with_rows [["abc"; "1"; "0"; "0"; "-5"; "5"]])) =
    Raise (ValueError (could_not_convert "abc")) /\
  fst (loaded (with_rows [good_record; ["1"; "1"; "0.5"; "abc"; "-5"; "5"]])) =
    Raise (ValueError (could_not_convert "abc")) /\
  ~ exists position : exn -> nat * nat,
      forall pre good v more rest,
        forallb valid_row pre = true ->
        forallb parses good = true ->
        parses v = false ->
        exists e,
          fst (loaded (with_rows (pre ++ (good ++ v :: more) :: rest))) = Raise e /\
          position e = (List.length pre, List.length good).
Proof.
  split; [vm_compute; reflexivity |].
  split; [vm_compute; reflexivity |].
  intros [position H].
  destruct (H [] [] "abc" ["1"; "0"; "0"; "-5"; "5"] []) as [e0 [He0 Hk0]];
    [reflexivity | reflexivity | vm_compute; reflexivity |].
  destruct (H [good_record] ["1"; "1"; "0.5"] "abc" ["-5"; "5"] []) as [e1 [He1 Hk1]];
    [vm_compute; reflexivity | vm_compute; reflexivity | vm_compute; reflexivity |].
  vm_compute in He0, He1.
  inversion He0; inversion He1; subst. cbn in Hk0, Hk1. congruence.
Qed.

(** C5, amended. When the first record that is not valid has a token
    that is no number, loading raises the [ValueError] of [float] for
    the first such token of that record; the exception carries the
    token's text, not the record index and not the position.  The
    script ends there; nothing of that record has been appended. *)
Theorem C5_unparseable_token (pre rest : list row) (good more : list string)
    (v : string) :
  forallb valid_row pre = true ->
  forallb parses good = true ->
  parses v = false ->
  loaded (with_rows (pre ++ (good ++ v :: more) :: rest)) =
    (Raise (ValueError (could_not_convert v)), columns_store pre empty_store) /\
  run (with_rows (pre ++ (good ++ v :: more) :: rest)) =
    (Raise (ValueError (could_not_convert v)), columns_store pre empty_store).
Proof.
  intros Hpre Hgood Hv.
  assert (H := loaded_unparseable pre rest good more v Hpre Hgood Hv).
  split; [exact H | now apply run_load_raises].
Qed.

Lemma C5_unparseable_token_witness :
  forallb valid_row [good_record] = true /\
  forallb parses ["1"; "1"; "0.5"] = true /\
  parses "abc" = false /\
  loaded (with_rows ([good_record] ++ (["1"; "1"; "0.5"] ++ "abc" :: ["-5"; "5"]) :: [])) =
    (Raise (ValueError (could_not_convert "abc")), columns_store [good_record] empty_store) /\
  run (with_rows ([good_record] ++ (["1"; "1"; "0.5"] ++ "abc" :: ["-5"; "5"]) :: [])) =
    (Raise (ValueError (could_not_convert "abc")), columns_store [good_record] empty_store).
Proof.
  split; [vm_compute; reflexivity |].
  split; [vm_compute; reflexivity |].
  split; [vm_compute; reflexivity |].
  apply (C5_unparseable_token [good_record] [] ["1"; "1"; "0.5"] ["-5"; "5"] "abc");
    vm_compute; reflexivity.
Defined.


(** *** What a failed load leaves behind *)

(** C6, as stated, fails: after the failed load of a file whose only
    record has three numbers, the first three lists hold a value of that
    record and the other three are empty. *)
Lemma C6_counterexample :
  loaded (with_rows three_fields) =
  (Raise IndexError, mkStore [lit "1"] [lit "2"] [lit "3"] [] [] [] None None).
Proof. vm_compute. reflexivity. Qed.

(** C6, amended. When loading raises, the script ends with that
    exception before anything is drawn: no figure exists and nothing is
    shown.  The module-level lists are not rolled back; what they hold
    depends on the cause.  If the file could not be opened ([OSError])
    they are empty.  If a token of the first record that is not valid is
    no number ([ValueError] for that token) they hold the records before
    it and nothing of it.  If that record is merely too short
    ([IndexError]) they hold the records before it and the fields it
    has.  If the reader raises after records that are all valid, they
    hold all these records. *)
Theorem C6_failed_load (fs : filesystem) (e : exn) (s : store) :
  loaded fs = (Raise e, s) ->
  run fs = (Raise e, s) /\ fig1 s = None /\ shown s = None /\
  ((fs "./result.csv" = None /\ e = OSError "./result.csv" /\ s = empty_store) \/
   exists reader pre,
     fs "./result.csv" = Some reader /\ forallb valid_row pre = true /\
     ((exists good v more rest,
         rows_of reader = pre ++ (good ++ v :: more) :: rest /\
         forallb parses good = true /\ parses v = false /\
         e = ValueError (could_not_convert v) /\
         s = columns_store pre empty_store) \/
      (exists short rest,
         rows_of reader = pre ++ short :: rest /\
         forallb parses short = true /\ (List.length short < 6)%nat /\
         e = IndexError /\
         s = columns_store (pre ++ [short]) empty_store) \/
      (rows_of reader = pre /\ failure reader = Some e /\
       s = columns_store pre empty_store))).
Proof.
  intros H. split; [now apply run_load_raises |].
  destruct (fs "./result.csv") as [reader |] eqn:Hfs.
  - rewrite (loaded_reading fs reader Hfs) in H.
    destruct (loaded_reading_cases reader)
      as [[Hv Hl] | [pre [bad [rest [Heq [Hpre Hc]]]]]].
    + rewrite Hl in H. destruct (failure reader) as [e' |] eqn:Hf; [| discriminate H].
      inversion H; subst.
      split; [reflexivity |]. split; [reflexivity |].
      right. exists reader, (rows_of reader).
      split; [reflexivity |]. split; [assumption |]. right; right. now repeat split.
    + destruct Hc as [[Hall [Hlen Hl]] | [good [v [more [Hb [Hgood [Hv Hl]]]]]]];
        rewrite Hl in H; inversion H; subst;
        (split; [reflexivity |]); (split; [reflexivity |]);
        right; exists reader, pre; (split; [reflexivity |]); (split; [assumption |]).
      * right; left. exists bad, rest. now repeat split.
      * left. exists good, v, more, rest. now repeat split.
  - rewrite (loaded_no_file fs Hfs) in H. inversion H; subst.
    split; [reflexivity |]. split; [reflexivity |]. left. now repeat split.
Qed.

Lemma C6_failed_load_witness :
  loaded (with_rows three_fields) =
    (Raise IndexError, columns_store three_fields empty_store) /\
  run (with_rows three_fields) =
    (Raise IndexError, columns_store three_fields empty_store) /\
  fig1 (columns_store three_fields empty_store) = None /\
  shown (columns_store three_fields empty_store) = None /\
  ((with_rows three_fields "./result.csv" = None /\
    IndexError = OSError "./result.csv" /\
    columns_store three_fields empty_store = empty_store) \/
   exists reader pre,
     with_rows three_fields "./result.csv" = Some reader /\
     forallb valid_row pre = true /\
     ((exists good v more rest,
         rows_of reader = pre ++ (good ++ v :: more) :: rest /\
         forallb parses good = true /\ parses v = false /\
         IndexError = ValueError (could_not_convert v) /\
         columns_store three_fields empty_store = columns_store pre empty_store) \/
      (exists short rest,
         rows_of reader = pre ++ short :: rest /\
         forallb parses short = true /\ (List.length short < 6)%nat /\
         IndexError = IndexError /\
         columns_store three_fields empty_store =
         columns_store (pre ++ [short]) empty_store) \/
      (rows_of reader = pre /\ failure reader = Some IndexError /\
       columns_store three_fields empty_store = columns_store pre empty_store))).
Proof.
  assert (H : loaded (with_rows three_fields) =
              (Raise IndexError, columns_store three_fields empty_store))
    by (vm_compute; reflexivity).
  split; [exact H |].
  exact (C6_failed_load (with_rows three_fields) IndexError
           (columns_store three_fields empty_store) H).
Defined.

(** *** The empty table *)

(** C3, as stated, fails: on the empty file the script does raise, but
    a figure with a panel and two (empty) lines has been made by then,
    and what raises is the reading of [t[0]] for the axis limits. *)
Lemma C3_counterexample :
  run (with_rows []) = (Raise IndexError, set_fig1 (Some unfinished_figure) empty_store) /\
  fig1 (snd (run (with_rows []))) <> None /\
  (exists ax, Mpl.axes unfinished_figure = [ax] /\ List.length (Mpl.lines ax) = 2%nat) /\
  getitem (t (snd (run (with_rows [])))) 0 = Raise IndexError.
Proof.
  split; [reflexivity |].
  split; [discriminate |].
  split; [eexists; split; reflexivity | reflexivity].
Qed.

(** C3, amended. For a zero-length table, drawing raises [IndexError]
    when it reads [t[0]] for the x-limits of the first panel.  By then
    the figure, its title, the first panel and its two empty step lines
    have been made; the panel has no limits, labels or legend yet, the
    second panel does not exist, and nothing has been shown.  The empty
    file runs into exactly this. *)
Theorem C3_empty_table (s : store) :
  is_table 0 s ->
  (exists s',
     render s = (Raise IndexError, s') /\
     fig1 s' = Some unfinished_figure /\
     shown s' = shown s /\
     getitem (t s) 0 = Raise IndexError) /\
  run (with_rows []) = (Raise IndexError, set_fig1 (Some unfinished_figure) empty_store).
Proof.
  intros H. split; [| reflexivity].
  exists (set_fig1 (Some unfinished_figure) s).
  split; [now apply render_empty |].
  split; [reflexivity |]. split; [reflexivity |].
  destruct H as [Ht _]. apply length_zero_iff_nil in Ht. rewrite Ht.
  apply getitem_empty.
Qed.

Lemma C3_empty_table_witness :
  is_table 0 empty_store /\
  (exists s',
     render empty_store = (Raise IndexError, s') /\
     fig1 s' = Some unfinished_figure /\
     shown s' = shown empty_store /\
     getitem (t empty_store) 0 = Raise IndexError) /\
  run (with_rows []) = (Raise IndexError, set_fig1 (Some unfinished_figure) empty_store).
Proof.
  assert (H : is_table 0 empty_store) by (repeat split).
  split; [exact H | exact (C3_empty_table empty_store H)].
Defined.


(** *** The drawn figure *)

(** Drawing a table of one record or more whose first and last times are
    finite succeeds and shows the figure that is in [fig1]. *)
Lemma render_shows (n : nat) (s : store) (x0 xN : float) :
  is_table n s ->
  nth_error (t s) 0 = Some x0 ->
  nth_error (t s) (n - 1) = Some xN ->
  PyFloat.is_finite x0 = true ->
  PyFloat.is_finite xN = true ->
  exists s',
    render s = (Ok tt, s') /\
    fig1 s' = Some (drawn_figure s x0 xN) /\
    shown s' = Some (drawn_figure s x0 xN).
Proof.
  intros Htab H0 HN F0 FN.
  exists (set_shown (Some (drawn_figure s x0 xN)) (set_fig1 (Some (drawn_figure s x0 xN)) s)).
  split; [now apply (render_table n) |].
  split; reflexivity.
Qed.

Lemma run_three_records :
  exists s,
    loaded (with_rows three_records) = (Ok tt, s) /\
    is_table 3 s /\
    nth_error (t s) 0 = Some (lit "0") /\
    nth_error (t s) 2 = Some (lit "2") /\
    run (with_rows three_records) = render s.
Proof.
  exists (columns_store three_records empty_store).
  assert (H : loaded (with_rows three_records) =
              (Ok tt, columns_store three_records empty_store))
    by (apply loaded_valid; vm_compute; reflexivity).
  split; [exact H |].
  split; [apply (columns_table three_records); vm_compute; reflexivity |].
  split; [vm_compute; reflexivity |].
  split; [vm_compute; reflexivity | now apply run_load_ok].
Qed.

(** C8, as stated, fails: for the one record at time 4 the limits of both
    panels are (3.8, 4.2), not (4, 4): [set_xlim] widens a range whose
    ends are the same. *)
Lemma C8_counterexample :
  exists s fig a b,
    run (with_rows one_record) = (Ok tt, s) /\ shown s = Some fig /\
    Mpl.axes fig = [a; b] /\ t s = [lit "4"] /\
    Mpl.xlim a = Some (lit "3.8", lit "4.2") /\
    Mpl.xlim b = Some (lit "3.8", lit "4.2") /\
    (lit "3.8", lit "4.2") <> (lit "4", lit "4").
Proof.
  do 4 eexists. split; [vm_compute; reflexivity |].
  split; [reflexivity |]. split; [reflexivity |]. split; [reflexivity |].
  split; [reflexivity |]. split; [reflexivity |].
  vm_compute. discriminate.
Qed.

(** C8, amended. For a table of N >= 1 records whose first and last
    times are limits that [set_xlim] keeps (both finite, and further apart
    than one part in 10^15 of the larger magnitude, which is itself not
    below about 2.2e-287), drawing succeeds and both panels of the shown
    figure have exactly the x-limits (t[0], t[N-1]); for the three records
    with times 0, 1, 2 the limits of both panels are (0, 2). *)
Theorem C8_x_limits (n : nat) (s : store) (x0 xN : float) :
  is_table n s ->
  nth_error (t s) 0 = Some x0 ->
  nth_error (t s) (n - 1) = Some xN ->
  kept_limits x0 xN = true ->
  (exists s' fig a b,
     render s = (Ok tt, s') /\ shown s' = Some fig /\ Mpl.axes fig = [a; b] /\
     Mpl.xlim a = Some (x0, xN) /\ Mpl.xlim b = Some (x0, xN)) /\
  (exists s' fig a b,
     run (with_rows three_records) = (Ok tt, s') /\ shown s' = Some fig /\
     Mpl.axes fig = [a; b] /\
     Mpl.xlim a = Some (lit "0", lit "2") /\ Mpl.xlim b = Some (lit "0", lit "2")).
Proof.
  intros Htab H0 HN Hk. split.
  - destruct (kept_limits_finite x0 xN Hk) as [F0 FN].
    destruct (render_shows n s x0 xN Htab H0 HN F0 FN) as [s' [Hr [_ Hs]]].
    exists s', (drawn_figure s x0 xN).
    unfold drawn_figure in *. rewrite (view_limits_kept x0 xN Hk) in *.
    exists (panel_a_of s x0 xN), (panel_b_of s x0 xN).
    repeat split; assumption.
  - do 4 eexists. split; [vm_compute; reflexivity |].
    split; [reflexivity |]. split; [reflexivity |]. split; reflexivity.
Qed.

Lemma C8_x_limits_witness :
  is_table 2 (columns_store two_records empty_store) /\
  nth_error (t (columns_store two_records empty_store)) 0 = Some (lit "0") /\
  nth_error (t (columns_store two_records empty_store)) (2 - 1) = Some (lit "1") /\
  kept_limits (lit "0") (lit "1") = true /\
  (exists s' fig a b,
     render (columns_store two_records empty_store) = (Ok tt, s') /\
     shown s' = Some fig /\ Mpl.axes fig = [a; b] /\
     Mpl.xlim a = Some (lit "0", lit "1") /\ Mpl.xlim b = Some (lit "0", lit "1")) /\
  (exists s' fig a b,
     run (with_rows three_records) = (Ok tt, s') /\ shown s' = Some fig /\
     Mpl.axes fig = [a; b] /\
     Mpl.xlim a = Some (lit "0", lit "2") /\ Mpl.xlim b = Some (lit "0", lit "2")).
Proof.
  assert (H : is_table 2 (columns_store two_records empty_store))
    by (vm_compute; repeat split).
  assert (H0 : nth_error (t (columns_store two_records empty_store)) 0 = Some (lit "0"))
    by (vm_compute; reflexivity).
  assert (HN : nth_error (t (columns_store two_records empty_store)) (2 - 1) = Some (lit "1"))
    by (vm_compute; reflexivity).
  assert (Hk : kept_limits (lit "0") (lit "1") = true) by (vm_compute; reflexivity).
  split; [exact H |]. split; [exact H0 |]. split; [exact HN |]. split; [exact Hk |].
  exact (C8_x_limits 2 _ (lit "0") (lit "1") H H0 HN Hk).
Defined.

(** C9, as stated, fails: for the two records whose second time is "nan"
    the table is not empty, but [set_xlim] raises on the first panel; the
    figure has that one panel only, so no limit line is drawn, and
    nothing is shown. *)
Lemma C9_counterexample :
  exists s fig a,
    run (with_rows nan_time) = (Raise (ValueError limits_not_finite), s) /\
    is_table 2 s /\
    fig1 s = Some fig /\ Mpl.axes fig = [a] /\ Mpl.subplot a = 211 /\
    shown s = None.
Proof.
  do 3 eexists. split; [vm_compute; reflexivity |].
  split; [vm_compute; repeat split |].
  split; [reflexivity |]. split; [reflexivity |]. split; reflexivity.
Qed.

(** C9, amended. For a table of one record or more whose first and last
    times are finite, the second panel of the shown figure has three
    lines: the upper limit, dashed, in red, as a step line, with the label
    "Limit"; the lower limit, dashed, in the same colour, as a step line,
    with no label; and the control input.  "Limit" is in the legend of
    that panel exactly once. *)
Theorem C9_limit_lines (n : nat) (s : store) (x0 xN : float) :
  is_table n s ->
  nth_error (t s) 0 = Some x0 ->
  nth_error (t s) (n - 1) = Some xN ->
  PyFloat.is_finite x0 = true ->
  PyFloat.is_finite xN = true ->
  exists s' fig a b upper lower input lg,
    render s = (Ok tt, s') /\ shown s' = Some fig /\ Mpl.axes fig = [a; b] /\
    Mpl.lines b = [upper; lower; input] /\
    Mpl.xdata upper = t s /\ Mpl.ydata upper = limit_upper s /\
    Mpl.xdata lower = t s /\ Mpl.ydata lower = limit_under s /\
    Mpl.linestyle upper = "--" /\ Mpl.linestyle lower = "--" /\
    Mpl.line_drawstyle upper = Mpl.steps_pre /\
    Mpl.line_drawstyle lower = Mpl.steps_pre /\
    Mpl.color upper = "red" /\ Mpl.color lower = Mpl.color upper /\
    Mpl.label upper = Some "Limit" /\ Mpl.label lower = None /\
    Mpl.legend_ b = Some lg /\
    Mpl.texts lg = Mpl.legend_texts (Mpl.lines b) /\
    count_occ string_dec (Mpl.texts lg) "Limit" = 1%nat.
Proof.
  intros Htab H0 HN F0 FN.
  destruct (render_shows n s x0 xN Htab H0 HN F0 FN) as [s' [Hr [_ Hs]]].
  exists s', (drawn_figure s x0 xN),
    (panel_a_of s (fst (Mpl.view_limits x0 xN)) (snd (Mpl.view_limits x0 xN))),
    (panel_b_of s (fst (Mpl.view_limits x0 xN)) (snd (Mpl.view_limits x0 xN))).
  do 4 eexists.
  split; [exact Hr |]. split; [exact Hs |].
  repeat (split; [reflexivity |]). reflexivity.
Qed.

Lemma C9_limit_lines_witness :
  is_table 3 (columns_store three_records empty_store) /\
  nth_error (t (columns_store three_records empty_store)) 0 = Some (lit "0") /\
  nth_error (t (columns_store three_records empty_store)) (3 - 1) = Some (lit "2") /\
  PyFloat.is_finite (lit "0") = true /\
  PyFloat.is_finite (lit "2") = true /\
  exists s' fig a b upper lower input lg,
    render (columns_store three_records empty_store) = (Ok tt, s') /\
    shown s' = Some fig /\ Mpl.axes fig = [a; b] /\
    Mpl.lines b = [upper; lower; input] /\
    Mpl.xdata upper = t (columns_store three_records empty_store) /\
    Mpl.ydata upper = limit_upper (columns_store three_records empty_store) /\
    Mpl.xdata lower = t (columns_store three_records empty_store) /\
    Mpl.ydata lower = limit_under (columns_store three_records empty_store) /\
    Mpl.linestyle upper = "--" /\ Mpl.linestyle lower = "--" /\
    Mpl.line_drawstyle upper = Mpl.steps_pre /\
    Mpl.line_drawstyle lower = Mpl.steps_pre /\
    Mpl.color upper = "red" /\ Mpl.color lower = Mpl.color upper /\
    Mpl.label upper = Some "Limit" /\ Mpl.label lower = None /\
    Mpl.legend_ b = Some lg /\
    Mpl.texts lg = Mpl.legend_texts (Mpl.lines b) /\
    count_occ string_dec (Mpl.texts lg) "Limit" = 1%nat.
Proof.
  assert (H : is_table 3 (columns_store three_records empty_store))
    by (vm_compute; repeat split).
  assert (H0 : nth_error (t (columns_store three_records empty_store)) 0 = Some (lit "0"))
    by (vm_compute; reflexivity).
  assert (HN : nth_error (t (columns_store three_records empty_store)) (3 - 1) = Some (lit "2"))
    by (vm_compute; reflexivity).
  assert (F0 : PyFloat.is_finite (lit "0") = true) by (vm_compute; reflexivity).
  assert (FN : PyFloat.is_finite (lit "2") = true) by (vm_compute; reflexivity).
  split; [exact H |]. split; [exact H0 |]. split; [exact HN |].
  split; [exact F0 |]. split; [exact FN |].
  exact (C9_limit_lines 3 _ (lit "0") (lit "2") H H0 HN F0 FN).
Defined.

(** *** Step lines *)

(** The line of the plant output drawn for the first two records of the
    scenario. *)
Lemma run_two_records :
  exists s fig a b l0,
    run (with_rows two_records) = (Ok tt, s) /\ shown s = Some fig /\
    Mpl.axes fig = [a; b] /\
    Mpl.lines a =
      [l0; Mpl.mkLine [lit "0"; lit "1"] [lit "0"; lit "0.5"] "limegreen" "-"
             Mpl.steps_pre (Some "Plant output")].
Proof.
  do 5 eexists. split; [vm_compute; reflexivity |].
  split; [reflexivity |]. split; reflexivity.
Qed.

Lemma held_between (c : string) (ls : string) (lbl : option string) (x : float) :
  PyFloat.ltb (lit "0") x = true ->
  PyFloat.ltb x (lit "1") = true ->
  Mpl.held_at (Mpl.mkLine [lit "0"; lit "1"] [lit "0"; lit "0.5"] c ls Mpl.steps_pre lbl) x
  = [lit "0.5"].
Proof.
  intros H0 H1. unfold Mpl.held_at, Mpl.path.
  cbn [Mpl.line_drawstyle Mpl.xdata Mpl.ydata Mpl.pts_to_prestep Mpl.segments filter].
  change (Mpl.horizontal ((lit "0", lit "0"), (lit "0", lit "0.5"))) with false.
  change (Mpl.horizontal ((lit "0", lit "0.5"), (lit "1", lit "0.5"))) with true.
  unfold Mpl.spans. cbn [fst snd andb].
  now rewrite H0, H1.
Qed.

(** C2, as stated, fails: for the table with output 0 at time 0 and
    output 0.5 at time 1, the drawn output curve is at 0.5, not at 0,
    over the time 0.99. *)
Lemma C2_counterexample :
  exists s fig a b l0 l1,
    run (with_rows two_records) = (Ok tt, s) /\ shown s = Some fig /\
    Mpl.axes fig = [a; b] /\ Mpl.lines a = [l0; l1] /\
    Mpl.xdata l1 = [lit "0"; lit "1"] /\ Mpl.ydata l1 = [lit "0"; lit "0.5"] /\
    Mpl.held_at l1 (lit "0.99") = [lit "0.5"] /\
    ~ In (lit "0") (Mpl.held_at l1 (lit "0.99")).
Proof.
  destruct run_two_records as [s [fig [a [b [l0 [Hrun [Hs [Hax Hl]]]]]]]].
  exists s, fig, a, b, l0. eexists.
  split; [exact Hrun |]. split; [exact Hs |]. split; [exact Hax |].
  split; [exact Hl |]. split; [reflexivity |]. split; [reflexivity |].
  split; [vm_compute; reflexivity |].
  vm_compute. intros [H | []]. discriminate.
Qed.

(** Had the lines been drawn with [where='post'], the curve would be at
    0 over the time 0.99, as C2 has it. *)
Remark post_step_holds_earlier_sample :
  Mpl.held_at (Mpl.mkLine [lit "0"; lit "1"] [lit "0"; lit "0.5"] "limegreen" "-"
                 Mpl.steps_post (Some "Plant output")) (lit "0.99")
  = [lit "0"].
Proof. vm_compute. reflexivity. Qed.

(** C2, amended. When the figure is drawn (a table of one record or more
    whose first and last times are finite), every line of the shown
    figure is a step line of the kind matplotlib calls 'pre': its path has
    horizontal and vertical pieces only (no interpolated values), and the
    value of a sample is held from the time of the sample before it up to
    its own time, where the path jumps to the next value.  For the table
    with output 0 at time 0 and output 0.5 at time 1 the output curve is
    at 0.5 over every time strictly between 0 and 1, for instance 0.99. *)
Theorem C2_step_lines (n : nat) (s : store) (x0 xN : float) :
  is_table n s ->
  nth_error (t s) 0 = Some x0 ->
  nth_error (t s) (n - 1) = Some xN ->
  PyFloat.is_finite x0 = true ->
  PyFloat.is_finite xN = true ->
  (exists s' fig,
     render s = (Ok tt, s') /\ shown s' = Some fig /\
     forall ax l,
       In ax (Mpl.axes fig) -> In l (Mpl.lines ax) ->
       Mpl.line_drawstyle l = Mpl.steps_pre /\
       Mpl.xdata l = t s /\
       (forall seg, In seg (Mpl.segments (Mpl.path l)) ->
                    Mpl.horizontal seg = true \/ Mpl.vertical seg = true) /\
       (forall i a b v,
          nth_error (Mpl.xdata l) i = Some a ->
          nth_error (Mpl.xdata l) (S i) = Some b ->
          nth_error (Mpl.ydata l) (S i) = Some v ->
          In ((a, v), (b, v)) (Mpl.segments (Mpl.path l)))) /\
  (exists s' fig a b l0 l1,
     run (with_rows two_records) = (Ok tt, s') /\ shown s' = Some fig /\
     Mpl.axes fig = [a; b] /\ Mpl.lines a = [l0; l1] /\
     Mpl.label l1 = Some "Plant output" /\
     Mpl.xdata l1 = [lit "0"; lit "1"] /\ Mpl.ydata l1 = [lit "0"; lit "0.5"] /\
     (forall x, PyFloat.ltb (lit "0") x = true -> PyFloat.ltb x (lit "1") = true ->
                Mpl.held_at l1 x = [lit "0.5"]) /\
     Mpl.held_at l1 (lit "0.99") = [lit "0.5"]).
Proof.
  intros Htab H0 HN F0 FN. split.
  - destruct (render_shows n s x0 xN Htab H0 HN F0 FN) as [s' [Hr [_ Hs]]].
    exists s', (drawn_figure s x0 xN).
    split; [exact Hr |]. split; [exact Hs |].
    intros ax l Hax Hl.
    assert (Hpre : Mpl.line_drawstyle l = Mpl.steps_pre /\ Mpl.xdata l = t s).
    { cbn [drawn_figure figure_of Mpl.axes] in Hax.
      destruct Hax as [<- | [<- | []]]; cbn [panel_a_of panel_b_of Mpl.lines] in Hl.
      - destruct Hl as [<- | [<- | []]]; split; reflexivity.
      - destruct Hl as [<- | [<- | [<- | []]]]; split; reflexivity. }
    destruct Hpre as [Hds Hx].
    split; [exact Hds |]. split; [exact Hx |].
    unfold Mpl.path. rewrite Hds. split.
    + intros seg Hseg.
      exact (proj1 (Forall_forall _ _) (prestep_axis_parallel _ _) seg Hseg).
    + intros i a b v. apply prestep_holds.
  - destruct run_two_records as [s' [fig [a [b [l0 [Hrun [Hs [Hax Hl]]]]]]]].
    exists s', fig, a, b, l0. eexists.
    split; [exact Hrun |]. split; [exact Hs |]. split; [exact Hax |].
    split; [exact Hl |].
    split; [reflexivity |]. split; [reflexivity |]. split; [reflexivity |].
    split; [intros x; apply held_between |].
    apply held_between; vm_compute; reflexivity.
Qed.

Lemma C2_step_lines_witness :
  is_table 3 (columns_store three_records empty_store) /\
  nth_error (t (columns_store three_records empty_store)) 0 = Some (lit "0") /\
  nth_error (t (columns_store three_records empty_store)) (3 - 1) = Some (lit "2") /\
  PyFloat.is_finite (lit "0") = true /\
  PyFloat.is_finite (lit "2") = true /\
  (exists s' fig,
     render (columns_store three_records empty_store) = (Ok tt, s') /\
     shown s' = Some fig /\
     forall ax l,
       In ax (Mpl.axes fig) -> In l (Mpl.lines ax) ->
       Mpl.line_drawstyle l = Mpl.steps_pre /\
       Mpl.xdata l = t (columns_store three_records empty_store) /\
       (forall seg, In seg (Mpl.segments (Mpl.path l)) ->
                    Mpl.horizontal seg = true \/ Mpl.vertical seg = true) /\
       (forall i a b v,
          nth_error (Mpl.xdata l) i = Some a ->
          nth_error (Mpl.xdata l) (S i) = Some b ->
          nth_error (Mpl.ydata l) (S i) = Some v ->
          In ((a, v), (b, v)) (Mpl.segments (Mpl.path l)))) /\
  (exists s' fig a b l0 l1,
     run (with_rows two_records) = (Ok tt, s') /\ shown s' = Some fig /\
     Mpl.axes fig = [a; b] /\ Mpl.lines a = [l0; l1] /\
     Mpl.label l1 = Some "Plant output" /\
     Mpl.xdata l1 = [lit "0"; lit "1"] /\ Mpl.ydata l1 = [lit "0"; lit "0.5"] /\
     (forall x, PyFloat.ltb (lit "0") x = true -> PyFloat.ltb x (lit "1") = true ->
                Mpl.held_at l1 x = [lit "0.5"]) /\
     Mpl.held_at l1 (lit "0.99") = [lit "0.5"]).
Proof.
  assert (H : is_table 3 (columns_store three_records empty_store))
    by (vm_compute; repeat split).
  assert (H0 : nth_error (t (columns_store three_records empty_store)) 0 = Some (lit "0"))
    by (vm_compute; reflexivity).
  assert (HN : nth_error (t (columns_store three_records empty_store)) (3 - 1) = Some (lit "2"))
    by (vm_compute; reflexivity).
  assert (F0 : PyFloat.is_finite (lit "0") = true) by (vm_compute; reflexivity).
  assert (FN : PyFloat.is_finite (lit "2") = true) by (vm_compute; reflexivity).
  split; [exact H |]. split; [exact H0 |]. split; [exact HN |].
  split; [exact F0 |]. split; [exact FN |].
  exact (C2_step_lines 3 _ (lit "0") (lit "2") H H0 HN F0 FN).
Defined.

(** *** What float accepts *)

(** C10. A record whose tokens are "nan", "inf", "-inf", "1e3", a
    numeral between blanks and a plain numeral loads: the lists get the
    not-a-number, the two infinities, 1000, 1.5 and 5. *)
Theorem C10_float_accepts_more :
  loaded (with_rows [["nan"; "inf"; "-inf"; "1e3"; " 1.5 "; "5"]]) =
  (Ok tt,
   mkStore [S754_nan] [S754_infinity false] [S754_infinity true]
     [S754_finite false 8796093022208000 (-43)]
     [S754_finite false 6755399441055744 (-52)]
     [S754_finite false 5629499534213120 (-50)]
     None None) /\
  8796093022208000 = 1000 * 2 ^ 43 /\
  2 * 6755399441055744 = 3 * 2 ^ 52 /\
  5629499534213120 = 5 * 2 ^ 50 /\
  valid_binary PyFloat.prec PyFloat.emax (S754_finite false 8796093022208000 (-43)) = true /\
  valid_binary PyFloat.prec PyFloat.emax (S754_finite false 6755399441055744 (-52)) = true /\
  valid_binary PyFloat.prec PyFloat.emax (S754_finite false 5629499534213120 (-50)) = true.
Proof.
  split; [vm_compute; reflexivity |].
  repeat split; vm_compute; reflexivity.
Qed.

End Claims.

(** ** Further properties of the script *)

Module Extras.

Import Py Script Model PyFacts LoadFacts RenderFacts.

(** *** The reading loop from any store *)

Lemma for_cons (row_ : row) (rows : list row) (s : store) :
  for_ (row_ :: rows) load_row s =
  match load_row row_ s with
  | (Ok _, s') => for_ rows load_row s'
  | (Raise e, s') => (Raise e, s')
  end.
Proof. reflexivity. Qed.

(** Whatever the loop does, it does the same from any two stores, and
    what it leaves in the lists are the columns of the records read so
    far. *)
Lemma for_columns (rows pre : list row) (s1 s2 : store) :
  exists res extra,
    for_ rows load_row (columns_store pre s1) = (res, columns_store (pre ++ extra) s1) /\
    for_ rows load_row (columns_store pre s2) = (res, columns_store (pre ++ extra) s2).
Proof.
  revert pre. induction rows as [| row_ rows IH]; intros pre.
  - exists (Ok tt), []. rewrite app_nil_r. now split.
  - rewrite !for_cons, !load_row_spec.
    destruct (comprehension float_ row_) as [nums | e] eqn:Hnums.
    + rewrite !(append_record_columns _ _ _ _ Hnums).
      destruct (6 <=? List.length nums)%nat.
      * destruct (IH (pre ++ [row_])) as [res [extra [H1 H2]]].
        exists res, (row_ :: extra).
        rewrite <- app_assoc in H1, H2. now split.
      * exists (Raise IndexError), [row_]. now split.
    + exists (Raise e), []. rewrite app_nil_r. now split.
Qed.

Lemma load_phase_unfold (fs : filesystem) (s0 : store) :
  (init ;; load fs) s0 =
  match fs "./result.csv" with
  | Some reader =>
      match for_ (rows_of reader) load_row (columns_store [] s0) with
      | (Ok _, s') =>
          (match failure reader with
           | Some e => Raise e
           | None => Ok tt
           end, s')
      | (Raise e', s') => (Raise e', s')
      end
  | None => (Raise (OSError "./result.csv"), columns_store [] s0)
  end.
Proof.
  unfold load, open_reader, for_in, bind, init, modify, ret, lift. cbn.
  destruct (fs "./result.csv") as [reader |]; [| reflexivity]. cbn.
  destruct (for_ (rows_of reader) load_row _) as [[[] | e'] s'];
    [now destruct (failure reader) | reflexivity].
Qed.

Lemma load_phase_shape (fs : filesystem) (s0 : store) :
  exists res rows',
    (init ;; load fs) s0 = (res, columns_store rows' s0) /\
    loaded fs = (res, columns_store rows' empty_store).
Proof.
  unfold loaded. rewrite !load_phase_unfold.
  destruct (fs "./result.csv") as [reader |].
  - destruct (for_columns (rows_of reader) [] s0 empty_store) as [res [extra [H1 H2]]].
    rewrite H1, H2. destruct res as [[] | e'].
    + exists (match failure reader with Some e => Raise e | None => Ok tt end), extra.
      now split.
    + exists (Raise e'), extra. now split.
  - exists (Raise (OSError "./result.csv")), []. now split.
Qed.

(** X4. The reading phase starts afresh: from any store it ends as it
    does from the empty one, with the same six lists, and it leaves the
    figure and the screen alone. *)
Theorem X4_load_resets (fs : filesystem) (s0 : store) :
  fst ((init ;; load fs) s0) = fst (loaded fs) /\
  lists_of (snd ((init ;; load fs) s0)) = lists_of (snd (loaded fs)) /\
  fig1 (snd ((init ;; load fs) s0)) = fig1 s0 /\
  shown (snd ((init ;; load fs) s0)) = shown s0.
Proof.
  destruct (load_phase_shape fs s0) as [res [rows' [H1 H2]]].
  rewrite H1, H2. repeat split.
Qed.


(** *** How a load can end *)

Lemma cell_parsed (k : nat) (row_ : row) :
  forallb parses row_ = true ->
  List.length (cell k row_) = if (k <? List.length row_)%nat then 1%nat else 0%nat.
Proof.
  intros Hall. unfold cell, field.
  destruct (nth_error row_ k) as [v |] eqn:Hv.
  - assert (Hk : (k < List.length row_)%nat) by (apply nth_error_Some; congruence).
    apply Nat.ltb_lt in Hk. rewrite Hk.
    rewrite forallb_forall in Hall.
    specialize (Hall v (nth_error_In _ _ Hv)). unfold parses in Hall.
    now destruct (PyFloat.of_string v).
  - apply nth_error_None in Hv.
    assert (Hk : (k <? List.length row_)%nat = false) by (apply Nat.ltb_ge; lia).
    now rewrite Hk.
Qed.

Lemma column_partial_length (k : nat) (pre : list row) (bad : row) :
  forallb valid_row pre = true -> forallb parses bad = true -> (k < 6)%nat ->
  List.length (column k (pre ++ [bad])) =
  (List.length pre + if (k <? List.length bad)%nat then 1 else 0)%nat.
Proof.
  intros Hpre Hall Hk.
  rewrite column_snoc, length_app, (cell_parsed k bad Hall).
  now rewrite (proj1 (column_valid k pre Hpre Hk)).
Qed.


(** X6. However the reading ends, the six lists are staggered by at most
    one value: none is longer than the one assigned before it, and the
    first is at most one longer than the last. *)
Theorem X6_lists_staggered (fs : filesystem) :
  (List.length (limit_upper (snd (loaded fs))) <= List.length (limit_under (snd (loaded fs))))%nat /\
  (List.length (limit_under (snd (loaded fs))) <= List.length (u (snd (loaded fs))))%nat /\
  (List.length (u (snd (loaded fs))) <= List.length (y (snd (loaded fs))))%nat /\
  (List.length (y (snd (loaded fs))) <= List.length (r (snd (loaded fs))))%nat /\
  (List.length (r (snd (loaded fs))) <= List.length (t (snd (loaded fs))))%nat /\
  (List.length (t (snd (loaded fs))) <= List.length (limit_upper (snd (loaded fs))) + 1)%nat.
Proof.
  destruct (fs "./result.csv") as [reader |] eqn:Hfs.
  - rewrite (loaded_reading fs reader Hfs).
    destruct (loaded_reading_cases reader)
      as [[Hv ->] | [pre [bad [rest [Heq [Hpre Hc]]]]]].
    + cbn [snd columns_store t r y u limit_under limit_upper].
      assert (L : forall k, (k < 6)%nat ->
                  List.length (column k (rows_of reader)) = List.length (rows_of reader))
        by (intros k Hk; now apply column_valid).
      rewrite (L 0%nat), (L 1%nat), (L 2%nat), (L 3%nat), (L 4%nat), (L 5%nat) by lia.
      lia.
    + destruct Hc as [[Hall [Hlen ->]] | [good [v [more [Hb [Hgood [Hv ->]]]]]]];
        cbn [snd columns_store t r y u limit_under limit_upper].
      * assert (L : forall k, (k < 6)%nat ->
                    List.length (column k (pre ++ [bad])) =
                    (List.length pre + if (k <? List.length bad)%nat then 1 else 0)%nat)
          by (intros k Hk; now apply column_partial_length).
        rewrite (L 0%nat), (L 1%nat), (L 2%nat), (L 3%nat), (L 4%nat), (L 5%nat) by lia.
        repeat match goal with
               | |- context [(?a <? ?b)%nat] => destruct (Nat.ltb_spec a b)
               end; lia.
      * assert (L : forall k, (k < 6)%nat -> List.length (column k pre) = List.length pre)
          by (intros k Hk; now apply column_valid).
        rewrite (L 0%nat), (L 1%nat), (L 2%nat), (L 3%nat), (L 4%nat), (L 5%nat) by lia.
        lia.
  - rewrite (loaded_no_file fs Hfs). cbn. lia.
Qed.

(** *** Drawing leaves the lists alone *)

Lemma keeps_bind {A B : Type} (c : M A) (k : A -> M B) :
  keeps_lists c -> (forall a, keeps_lists (k a)) -> keeps_lists (bind c k).
Proof.
  intros Hc Hk s. unfold bind. specialize (Hc s).
  destruct (c s) as [[a | e] s']; cbn [snd] in Hc |- *.
  - now rewrite (Hk a s').
  - exact Hc.
Qed.

Lemma keeps_get {A : Type} (f : store -> A) : keeps_lists (get f).
Proof. intros s. reflexivity. Qed.

Lemma keeps_lift {A : Type} (x : result A) : keeps_lists (lift x).
Proof. intros s. reflexivity. Qed.

Lemma keeps_on_axes (ax : nat) (f : Mpl.Axes -> result Mpl.Axes) :
  keeps_lists (on_axes ax f).
Proof.
  intros s. unfold on_axes.
  destruct (update_nth ax f (Mpl.axes (gcf s))); reflexivity.
Qed.

Lemma keeps_add_subplot (pos : Z) : keeps_lists (add_subplot pos).
Proof. intros s. reflexivity. Qed.

Lemma keeps_render : keeps_lists render.
Proof.
  unfold render, panel_a, panel_b.
  repeat first
    [ apply keeps_bind; [| intros ?]
    | apply keeps_get | apply keeps_lift | apply keeps_on_axes
    | apply keeps_add_subplot
    | (intros s; reflexivity) ].
Qed.

(** X3. Drawing never changes the six lists, whether it ends normally or
    raises. *)
Theorem X3_render_keeps_lists (s : store) :
  lists_of (snd (render s)) = lists_of s.
Proof. apply keeps_render. Qed.


(** *** Drawing shows nothing before its end *)

Lemma shown_bind {A B : Type} (c : M A) (k : A -> M B) :
  keeps_shown c -> (forall a, keeps_shown (k a)) -> keeps_shown (bind c k).
Proof.
  intros Hc Hk s. unfold bind. specialize (Hc s).
  destruct (c s) as [[a | e] s']; cbn [snd] in Hc |- *.
  - now rewrite (Hk a s').
  - exact Hc.
Qed.

Lemma shown_get {A : Type} (f : store -> A) : keeps_shown (get f).
Proof. intros s. reflexivity. Qed.

Lemma shown_lift {A : Type} (x : result A) : keeps_shown (lift x).
Proof. intros s. reflexivity. Qed.

Lemma shown_on_axes (ax : nat) (f : Mpl.Axes -> result Mpl.Axes) :
  keeps_shown (on_axes ax f).
Proof.
  intros s. unfold on_axes.
  destruct (update_nth ax f (Mpl.axes (gcf s))); reflexivity.
Qed.

Lemma shown_add_subplot (pos : Z) : keeps_shown (add_subplot pos).
Proof. intros s. reflexivity. Qed.

Ltac shown_steps :=
  repeat first
    [ apply shown_bind; [| intros ?]
    | apply shown_get | apply shown_lift | apply shown_on_axes
    | apply shown_add_subplot
    | (intros s; reflexivity) ].

Lemma shown_panel_a : keeps_shown panel_a.
Proof. unfold panel_a. shown_steps. Qed.

Lemma shown_panel_b : keeps_shown panel_b.
Proof. unfold panel_b. shown_steps. Qed.

Lemma silent_bind {A B : Type} (c : M A) (k : A -> M B) :
  keeps_shown c -> (forall a, silent_when_raising (k a)) ->
  silent_when_raising (bind c k).
Proof.
  intros Hc Hk s e. unfold bind. specialize (Hc s).
  destruct (c s) as [[a | e'] s']; cbn [snd] in Hc.
  - intros H. now rewrite (Hk a s' e H).
  - intros _. exact Hc.
Qed.

Lemma silent_render : silent_when_raising render.
Proof.
  unfold render.
  apply silent_bind; [intros s; reflexivity | intros _].
  apply silent_bind; [intros s; reflexivity | intros _].
  apply silent_bind; [apply shown_panel_a | intros _].
  apply silent_bind; [apply shown_panel_b | intros _].
  intros s e H. discriminate H.
Qed.

(** *** When drawing succeeds *)

Lemma render_ok_table (s : store) :
  fst (render s) = Ok tt ->
  exists n x0 xN,
    is_table n s /\
    nth_error (t s) 0 = Some x0 /\ nth_error (t s) (n - 1) = Some xN /\
    PyFloat.is_finite x0 = true /\ PyFloat.is_finite xN = true.
Proof.
  destruct s as [t0 r0 y0 u0 lo0 up0 f0 sh0]. intros H.
  unfold render, panel_a, panel_b, plt_figure, plt_suptitle, plt_show, add_subplot,
    on_axes, bind, get, lift, modify, gcf, Mpl.step, Mpl.add_line, Mpl.set_xlim,
    Mpl.validate_converted_limits in H.
  repeat (cbn -[getitem PyFloat.is_finite Mpl.view_limits] in H;
          match type of H with
          | context [Nat.eqb ?a ?b] => destruct (Nat.eqb a b) eqn:?; [| discriminate H]
          | context [getitem ?l ?i] => destruct (getitem l i) eqn:?; [| discriminate H]
          | context [PyFloat.is_finite ?x] =>
              destruct (PyFloat.is_finite x) eqn:?; [| discriminate H]
          end).
  repeat match goal with
         | E : getitem _ 0 = Ok _ |- _ => apply getitem_zero_inv in E
         | E : getitem _ (-1) = Ok _ |- _ => apply getitem_minus_one_inv in E
         | E : Nat.eqb _ _ = true |- _ => apply Nat.eqb_eq in E
         end.
  match goal with
  | E0 : nth_error t0 0 = Some ?a, EN : nth_error t0 (List.length t0 - 1) = Some ?b |- _ =>
      exists (List.length t0), a, b
  end.
  unfold is_table. cbn [t r y u limit_under limit_upper].
  repeat split; congruence.
Qed.


(** X11. For a table of one record or more whose first or last time is
    not finite, drawing raises the [ValueError] of [set_xlim] on the
    first panel.  By then the figure has that panel with its two lines
    and neither limits nor legend; the second panel is never made and
    nothing is shown. *)
Theorem X11_render_stops_at_limits (n : nat) (s : store) (x0 xN : float) :
  is_table n s ->
  nth_error (t s) 0 = Some x0 ->
  nth_error (t s) (n - 1) = Some xN ->
  PyFloat.is_finite x0 && PyFloat.is_finite xN = false ->
  exists s' fig a setpoint output,
    render s = (Raise (ValueError limits_not_finite), s') /\
    fig1 s' = Some fig /\ Mpl.axes fig = [a] /\ Mpl.subplot a = 211 /\
    Mpl.lines a = [setpoint; output] /\
    Mpl.ydata setpoint = r s /\ Mpl.ydata output = y s /\
    Mpl.xlim a = None /\ Mpl.ylabel a = None /\ Mpl.legend_ a = None /\
    shown s' = shown s.
Proof.
  intros Htab H0 HN Hfin.
  exists (set_fig1 (Some (stopped_figure s)) s). do 4 eexists.
  split; [exact (render_stopped n s x0 xN Htab H0 HN Hfin) |].
  repeat (split; [reflexivity |]). reflexivity.
Qed.

Lemma X11_render_stops_at_limits_witness :
  is_table 2 (columns_store nan_time empty_store) /\
  nth_error (t (columns_store nan_time empty_store)) 0 = Some (lit "0") /\
  nth_error (t (columns_store nan_time empty_store)) (2 - 1) = Some S754_nan /\
  PyFloat.is_finite (lit "0") && PyFloat.is_finite S754_nan = false /\
  exists s' fig a setpoint output,
    render (columns_store nan_time empty_store) =
      (Raise (ValueError limits_not_finite), s') /\
    fig1 s' = Some fig /\ Mpl.axes fig = [a] /\ Mpl.subplot a = 211 /\
    Mpl.lines a = [setpoint; output] /\
    Mpl.ydata setpoint = r (columns_store nan_time empty_store) /\
    Mpl.ydata output = y (columns_store nan_time empty_store) /\
    Mpl.xlim a = None /\ Mpl.ylabel a = None /\ Mpl.legend_ a = None /\
    shown s' = shown (columns_store nan_time empty_store).
Proof.
  assert (H : is_table 2 (columns_store nan_time empty_store))
    by (vm_compute; repeat split).
  assert (H0 : nth_error (t (columns_store nan_time empty_store)) 0 = Some (lit "0"))
    by (vm_compute; reflexivity).
  assert (HN : nth_error (t (columns_store nan_time empty_store)) (2 - 1) = Some S754_nan)
    by (vm_compute; reflexivity).
  assert (Hf : PyFloat.is_finite (lit "0") && PyFloat.is_finite S754_nan = false)
    by (vm_compute; reflexivity).
  split; [exact H |]. split; [exact H0 |]. split; [exact HN |]. split; [exact Hf |].
  exact (X11_render_stops_at_limits 2 _ (lit "0") S754_nan H H0 HN Hf).
Defined.

(** *** How the script can end *)

Lemma run_valid (fs : filesystem) (rows : list row) :
  fs "./result.csv" = Some (mkReading rows None) ->
  forallb valid_row rows = true ->
  run fs = render (columns_store rows empty_store).
Proof.
  intros Hfs Hv. apply Claims.run_load_ok.
  rewrite (loaded_file fs rows Hfs). now apply loaded_valid.
Qed.

(** The first and the last time of a valid file. *)
Lemma ends_of_columns (rows : list row) (n : nat) (x0 xN : float) :
  forallb valid_row rows = true ->
  n = List.length rows ->
  nth_error (column 0 rows) 0 = Some x0 ->
  nth_error (column 0 rows) (n - 1) = Some xN ->
  exists first last,
    nth_error rows 0 = Some first /\ nth_error rows (List.length rows - 1) = Some last /\
    field 0 first = Some x0 /\ field 0 last = Some xN.
Proof.
  intros Hv -> H0 HN.
  destruct (column_valid 0 rows Hv ltac:(lia)) as [Hlen Hnth].
  assert (Hne : (0 < List.length rows)%nat).
  { rewrite <- Hlen. apply nth_error_Some. congruence. }
  destruct (nth_error rows 0) as [first |] eqn:E0;
    [| apply nth_error_None in E0; lia].
  destruct (nth_error rows (List.length rows - 1)) as [last |] eqn:EN;
    [| apply nth_error_None in EN; lia].
  exists first, last.
  rewrite (Hnth _ _ E0) in H0. rewrite (Hnth _ _ EN) in HN. now repeat split.
Qed.

(** X1. The script ends normally exactly when [./result.csv] can be
    opened, the reader yields at least one record and stops without
    raising, every record has six tokens or more, all of them numbers,
    and the time of the first and of the last record is finite. *)
Theorem X1_run_succeeds_iff (fs : filesystem) :
  fst (run fs) = Ok tt <->
  exists rows first last x0 xN,
    fs "./result.csv" = Some (mkReading rows None) /\
    forallb valid_row rows = true /\
    nth_error rows 0 = Some first /\
    nth_error rows (List.length rows - 1) = Some last /\
    field 0 first = Some x0 /\ field 0 last = Some xN /\
    PyFloat.is_finite x0 = true /\ PyFloat.is_finite xN = true.
Proof.
  split.
  - intros H. destruct (fs "./result.csv") as [[rows f] |] eqn:Hfs.
    + assert (Hl := loaded_reading fs _ Hfs).
      destruct (loaded_reading_cases (mkReading rows f))
        as [[Hv Hc] | [pre [bad [rest [Heq [Hpre Hc]]]]]].
      * cbn [rows_of failure] in Hv, Hc. rewrite Hc in Hl.
        destruct f as [e |].
        { rewrite (Claims.run_load_raises fs _ _ Hl) in H. discriminate H. }
        rewrite (Claims.run_load_ok fs _ Hl) in H.
        destruct (render_ok_table _ H) as [n [x0 [xN [Htab [H0 [HN [F0 FN]]]]]]].
        cbn [columns_store t] in H0, HN.
        assert (Hn : n = List.length rows).
        { destruct Htab as [Ht _]. cbn [columns_store t] in Ht.
          rewrite <- Ht. exact (proj1 (column_valid 0 rows Hv ltac:(lia))). }
        destruct (ends_of_columns rows n x0 xN Hv Hn H0 HN)
          as [first [last [E0 [EN [G0 GN]]]]].
        exists rows, first, last, x0, xN. now repeat split.
      * exfalso.
        destruct Hc as [[_ [_ Hc]] | [good [v [more [_ [_ [_ Hc]]]]]]];
          rewrite Hc in Hl;
          rewrite (Claims.run_load_raises fs _ _ Hl) in H; discriminate H.
    + rewrite (Claims.run_load_raises fs _ _ (loaded_no_file fs Hfs)) in H.
      discriminate H.
  - intros [rows [first [last [x0 [xN [Hfs [Hv [E0 [EN [G0 [GN [F0 FN]]]]]]]]]]]].
    rewrite (run_valid fs rows Hfs Hv).
    destruct (column_valid 0 rows Hv ltac:(lia)) as [Hlen Hnth].
    rewrite (render_table (List.length rows) _ x0 xN); [reflexivity | | | | assumption ..].
    + now apply Claims.columns_table.
    + cbn [columns_store t]. now rewrite (Hnth _ _ E0).
    + cbn [columns_store t]. now rewrite (Hnth _ _ EN).
Qed.

(** X2. A run ends in one of two ways.  Either it ends normally, and then
    the figure on the screen is the finished figure of [fig1], with its
    two panels.  Or it raises, and then nothing is on the screen. *)
Theorem X2_run_outcomes (fs : filesystem) :
  (fst (run fs) = Ok tt /\
   exists fig a b,
     shown (snd (run fs)) = Some fig /\ fig1 (snd (run fs)) = Some fig /\
     Mpl.axes fig = [a; b]) \/
  ((exists e, fst (run fs) = Raise e) /\ shown (snd (run fs)) = None).
Proof.
  destruct (load_phase_shape fs empty_store) as [res [rows' [_ Hl]]].
  destruct res as [[] | e].
  - rewrite (Claims.run_load_ok fs _ Hl).
    destruct (fst (render (columns_store rows' empty_store))) as [[] | e] eqn:Hr.
    + left. split; [reflexivity |].
      destruct (render_ok_table _ Hr) as [n [x0 [xN [Htab [H0 [HN [F0 FN]]]]]]].
      rewrite (render_table n _ x0 xN Htab H0 HN F0 FN).
      do 3 eexists. repeat split.
    + right. split; [now exists e |].
      now rewrite (silent_render _ e Hr).
  - right. rewrite (Claims.run_load_raises fs _ _ Hl).
    split; [now exists e | reflexivity].
Qed.

(** *** Records in sequence *)

Lemma column_app (k : nat) (a b : list row) :
  column k (a ++ b) = column k a ++ column k b.
Proof. unfold column. apply flat_map_app. Qed.

(** X7. When the reader yields the valid records [rows1] followed by the
    valid records [rows2], each list holds the values loaded from [rows1]
    followed by those loaded from [rows2]: the records the reader yields
    are kept in their order, and none is merged or dropped. *)
Theorem X7_load_concatenates (rows1 rows2 : list row) :
  forallb valid_row rows1 = true ->
  forallb valid_row rows2 = true ->
  exists s1 s2 s,
    loaded (with_rows rows1) = (Ok tt, s1) /\
    loaded (with_rows rows2) = (Ok tt, s2) /\
    loaded (with_rows (rows1 ++ rows2)) = (Ok tt, s) /\
    t s = t s1 ++ t s2 /\ r s = r s1 ++ r s2 /\ y s = y s1 ++ y s2 /\
    u s = u s1 ++ u s2 /\ limit_under s = limit_under s1 ++ limit_under s2 /\
    limit_upper s = limit_upper s1 ++ limit_upper s2.
Proof.
  intros H1 H2.
  assert (H : forallb valid_row (rows1 ++ rows2) = true)
    by (rewrite forallb_app; now rewrite H1, H2).
  exists (columns_store rows1 empty_store), (columns_store rows2 empty_store),
    (columns_store (rows1 ++ rows2) empty_store).
  rewrite !loaded_valid by assumption.
  cbn [columns_store t r y u limit_under limit_upper].
  rewrite !column_app. repeat split.
Qed.

Lemma X7_load_concatenates_witness :
  forallb valid_row two_records = true /\
  forallb valid_row three_records = true /\
  exists s1 s2 s,
    loaded (with_rows two_records) = (Ok tt, s1) /\
    loaded (with_rows three_records) = (Ok tt, s2) /\
    loaded (with_rows (two_records ++ three_records)) = (Ok tt, s) /\
    t s = t s1 ++ t s2 /\ r s = r s1 ++ r s2 /\ y s = y s1 ++ y s2 /\
    u s = u s1 ++ u s2 /\ limit_under s = limit_under s1 ++ limit_under s2 /\
    limit_upper s = limit_upper s1 ++ limit_upper s2.
Proof.
  assert (H1 : forallb valid_row two_records = true) by (vm_compute; reflexivity).
  assert (H2 : forallb valid_row three_records = true) by (vm_compute; reflexivity).
  split; [exact H1 |]. split; [exact H2 |].
  exact (X7_load_concatenates two_records three_records H1 H2).
Defined.



(** *** What is on the figure *)

(** X8. For a table of one record or more whose first and last times are
    finite, the first panel of the shown figure is subplot 211 with two
    lines over the times: the set-point (royal blue, dashed) and the plant
    output (lime green, solid), in that order.  It has the y-label
    "Displacement [m]" and no x-label, and its legend lists "Set-point"
    then "Plant output" in the upper left. *)
Theorem X8_panel_a (n : nat) (s : store) (x0 xN : float) :
  is_table n s ->
  nth_error (t s) 0 = Some x0 ->
  nth_error (t s) (n - 1) = Some xN ->
  PyFloat.is_finite x0 = true ->
  PyFloat.is_finite xN = true ->
  exists s' fig a b setpoint output lg,
    render s = (Ok tt, s') /\ shown s' = Some fig /\ Mpl.axes fig = [a; b] /\
    Mpl.subplot a = 211 /\ Mpl.lines a = [setpoint; output] /\
    Mpl.xdata setpoint = t s /\ Mpl.ydata setpoint = r s /\
    Mpl.color setpoint = "royalblue" /\ Mpl.linestyle setpoint = "--" /\
    Mpl.label setpoint = Some "Set-point" /\
    Mpl.xdata output = t s /\ Mpl.ydata output = y s /\
    Mpl.color output = "limegreen" /\ Mpl.linestyle output = "-" /\
    Mpl.label output = Some "Plant output" /\
    Mpl.xlabel a = None /\ Mpl.ylabel a = Some ("Displacement [m]", 15) /\
    Mpl.tick_labelsize a = Some 13 /\
    Mpl.legend_ a = Some lg /\ Mpl.texts lg = Mpl.legend_texts (Mpl.lines a) /\
    Mpl.texts lg = ["Set-point"; "Plant output"] /\
    Mpl.legend_fontsize lg = 15 /\ Mpl.loc lg = "upper left".
Proof.
  intros Htab H0 HN F0 FN.
  destruct (Claims.render_shows n s x0 xN Htab H0 HN F0 FN) as [s' [Hr [_ Hs]]].
  exists s', (drawn_figure s x0 xN),
    (panel_a_of s (fst (Mpl.view_limits x0 xN)) (snd (Mpl.view_limits x0 xN))),
    (panel_b_of s (fst (Mpl.view_limits x0 xN)) (snd (Mpl.view_limits x0 xN))).
  do 3 eexists.
  split; [exact Hr |]. split; [exact Hs |].
  repeat (split; [reflexivity |]). reflexivity.
Qed.

Lemma X8_panel_a_witness :
  is_table 3 (columns_store three_records empty_store) /\
  nth_error (t (columns_store three_records empty_store)) 0 = Some (lit "0") /\
  nth_error (t (columns_store three_records empty_store)) (3 - 1) = Some (lit "2") /\
  PyFloat.is_finite (lit "0") = true /\
  PyFloat.is_finite (lit "2") = true /\
  exists s' fig a b setpoint output lg,
    render (columns_store three_records empty_store) = (Ok tt, s') /\
    shown s' = Some fig /\ Mpl.axes fig = [a; b] /\
    Mpl.subplot a = 211 /\ Mpl.lines a = [setpoint; output] /\
    Mpl.xdata setpoint = t (columns_store three_records empty_store) /\
    Mpl.ydata setpoint = r (columns_store three_records empty_store) /\
    Mpl.color setpoint = "royalblue" /\ Mpl.linestyle setpoint = "--" /\
    Mpl.label setpoint = Some "Set-point" /\
    Mpl.xdata output = t (columns_store three_records empty_store) /\
    Mpl.ydata output = y (columns_store three_records empty_store) /\
    Mpl.color output = "limegreen" /\ Mpl.linestyle output = "-" /\
    Mpl.label output = Some "Plant output" /\
    Mpl.xlabel a = None /\ Mpl.ylabel a = Some ("Displacement [m]", 15) /\
    Mpl.tick_labelsize a = Some 13 /\
    Mpl.legend_ a = Some lg /\ Mpl.texts lg = Mpl.legend_texts (Mpl.lines a) /\
    Mpl.texts lg = ["Set-point"; "Plant output"] /\
    Mpl.legend_fontsize lg = 15 /\ Mpl.loc lg = "upper left".
Proof.
  assert (H : is_table 3 (columns_store three_records empty_store))
    by (vm_compute; repeat split).
  assert (H0 : nth_error (t (columns_store three_records empty_store)) 0 = Some (lit "0"))
    by (vm_compute; reflexivity).
  assert (HN : nth_error (t (columns_store three_records empty_store)) (3 - 1) = Some (lit "2"))
    by (vm_compute; reflexivity).
  assert (F0 : PyFloat.is_finite (lit "0") = true) by (vm_compute; reflexivity).
  assert (FN : PyFloat.is_finite (lit "2") = true) by (vm_compute; reflexivity).
  split; [exact H |]. split; [exact H0 |]. split; [exact HN |].
  split; [exact F0 |]. split; [exact FN |].
  exact (X8_panel_a 3 _ (lit "0") (lit "2") H H0 HN F0 FN).
Defined.

(** X9. For a table of one record or more whose first and last times are
    finite, the shown figure is the one in [fig1]; it is 10 by 7, titled
    "Spring-Mass-Damper System", and has exactly two panels.  The second
    is subplot 212; its third line is the control input over the times
    (orange, solid); it has the x-label "Time [s]" and the y-label
    "Force [N]", and its legend lists "Limit" then "Control input" in the
    upper left. *)
Theorem X9_figure_and_panel_b (n : nat) (s : store) (x0 xN : float) :
  is_table n s ->
  nth_error (t s) 0 = Some x0 ->
  nth_error (t s) (n - 1) = Some xN ->
  PyFloat.is_finite x0 = true ->
  PyFloat.is_finite xN = true ->
  exists s' fig a b upper lower input lg,
    render s = (Ok tt, s') /\ shown s' = Some fig /\ fig1 s' = Some fig /\
    Mpl.figsize fig = Some (10, 7) /\
    Mpl.suptitle fig = Some ("Spring-Mass-Damper System", 20) /\
    Mpl.axes fig = [a; b] /\
    Mpl.subplot b = 212 /\ Mpl.lines b = [upper; lower; input] /\
    Mpl.xdata input = t s /\ Mpl.ydata input = u s /\
    Mpl.color input = "orange" /\ Mpl.linestyle input = "-" /\
    Mpl.label input = Some "Control input" /\
    Mpl.xlabel b = Some ("Time [s]", 15) /\ Mpl.ylabel b = Some ("Force [N]", 15) /\
    Mpl.tick_labelsize b = Some 13 /\
    Mpl.legend_ b = Some lg /\ Mpl.texts lg = ["Limit"; "Control input"] /\
    Mpl.legend_fontsize lg = 15 /\ Mpl.loc lg = "upper left".
Proof.
  intros Htab H0 HN F0 FN.
  destruct (Claims.render_shows n s x0 xN Htab H0 HN F0 FN) as [s' [Hr [Hf Hs]]].
  exists s', (drawn_figure s x0 xN),
    (panel_a_of s (fst (Mpl.view_limits x0 xN)) (snd (Mpl.view_limits x0 xN))),
    (panel_b_of s (fst (Mpl.view_limits x0 xN)) (snd (Mpl.view_limits x0 xN))).
  do 4 eexists.
  split; [exact Hr |]. split; [exact Hs |]. split; [exact Hf |].
  repeat (split; [reflexivity |]). reflexivity.
Qed.

Lemma X9_figure_and_panel_b_witness :
  is_table 3 (columns_store three_records empty_store) /\
  nth_error (t (columns_store three_records empty_store)) 0 = Some (lit "0") /\
  nth_error (t (columns_store three_records empty_store)) (3 - 1) = Some (lit "2") /\
  PyFloat.is_finite (lit "0") = true /\
  PyFloat.is_finite (lit "2") = true /\
  exists s' fig a b upper lower input lg,
    render (columns_store three_records empty_store) = (Ok tt, s') /\
    shown s' = Some fig /\ fig1 s' = Some fig /\
    Mpl.figsize fig = Some (10, 7) /\
    Mpl.suptitle fig = Some ("Spring-Mass-Damper System", 20) /\
    Mpl.axes fig = [a; b] /\
    Mpl.subplot b = 212 /\ Mpl.lines b = [upper; lower; input] /\
    Mpl.xdata input = t (columns_store three_records empty_store) /\
    Mpl.ydata input = u (columns_store three_records empty_store) /\
    Mpl.color input = "orange" /\ Mpl.linestyle input = "-" /\
    Mpl.label input = Some "Control input" /\
    Mpl.xlabel b = Some ("Time [s]", 15) /\ Mpl.ylabel b = Some ("Force [N]", 15) /\
    Mpl.tick_labelsize b = Some 13 /\
    Mpl.legend_ b = Some lg /\ Mpl.texts lg = ["Limit"; "Control input"] /\
    Mpl.legend_fontsize lg = 15 /\ Mpl.loc lg = "upper left".
Proof.
  assert (H : is_table 3 (columns_store three_records empty_store))
    by (vm_compute; repeat split).
  assert (H0 : nth_error (t (columns_store three_records empty_store)) 0 = Some (lit "0"))
    by (vm_compute; reflexivity).
  assert (HN : nth_error (t (columns_store three_records empty_store)) (3 - 1) = Some (lit "2"))
    by (vm_compute; reflexivity).
  assert (F0 : PyFloat.is_finite (lit "0") = true) by (vm_compute; reflexivity).
  assert (FN : PyFloat.is_finite (lit "2") = true) by (vm_compute; reflexivity).
  split; [exact H |]. split; [exact H0 |]. split; [exact HN |].
  split; [exact F0 |]. split; [exact FN |].
  exact (X9_figure_and_panel_b 3 _ (lit "0") (lit "2") H H0 HN F0 FN).
Defined.

(** X10. For a table of n >= 1 records whose first and last times are
    finite, the shown figure has five lines in all, and every one of them
    has n abscissas and n ordinates. *)
Theorem X10_series_span_table (n : nat) (s : store) (x0 xN : float) :
  is_table n s ->
  nth_error (t s) 0 = Some x0 ->
  nth_error (t s) (n - 1) = Some xN ->
  PyFloat.is_finite x0 = true ->
  PyFloat.is_finite xN = true ->
  exists s' fig,
    render s = (Ok tt, s') /\ shown s' = Some fig /\
    List.length (flat_map Mpl.lines (Mpl.axes fig)) = 5%nat /\
    forall ax l,
      In ax (Mpl.axes fig) -> In l (Mpl.lines ax) ->
      List.length (Mpl.xdata l) = n /\ List.length (Mpl.ydata l) = n.
Proof.
  intros Htab H0 HN F0 FN.
  destruct (Claims.render_shows n s x0 xN Htab H0 HN F0 FN) as [s' [Hr [_ Hs]]].
  exists s', (drawn_figure s x0 xN).
  split; [exact Hr |]. split; [exact Hs |]. split; [reflexivity |].
  destruct Htab as (Ht & Hrr & Hy & Hu & Hlo & Hup).
  intros ax l Hax Hl. cbn [drawn_figure figure_of Mpl.axes] in Hax.
  destruct Hax as [<- | [<- | []]]; cbn [panel_a_of panel_b_of Mpl.lines] in Hl.
  - destruct Hl as [<- | [<- | []]]; split; assumption.
  - destruct Hl as [<- | [<- | [<- | []]]]; split; assumption.
Qed.

Lemma X10_series_span_table_witness :
  is_table 3 (columns_store three_records empty_store) /\
  nth_error (t (columns_store three_records empty_store)) 0 = Some (lit "0") /\
  nth_error (t (columns_store three_records empty_store)) (3 - 1) = Some (lit "2") /\
  PyFloat.is_finite (lit "0") = true /\
  PyFloat.is_finite (lit "2") = true /\
  exists s' fig,
    render (columns_store three_records empty_store) = (Ok tt, s') /\
    shown s' = Some fig /\
    List.length (flat_map Mpl.lines (Mpl.axes fig)) = 5%nat /\
    forall ax l,
      In ax (Mpl.axes fig) -> In l (Mpl.lines ax) ->
      List.length (Mpl.xdata l) = 3%nat /\ List.length (Mpl.ydata l) = 3%nat.
Proof.
  assert (H : is_table 3 (columns_store three_records empty_store))
    by (vm_compute; repeat split).
  assert (H0 : nth_error (t (columns_store three_records empty_store)) 0 = Some (lit "0"))
    by (vm_compute; reflexivity).
  assert (HN : nth_error (t (columns_store three_records empty_store)) (3 - 1) = Some (lit "2"))
    by (vm_compute; reflexivity).
  assert (F0 : PyFloat.is_finite (lit "0") = true) by (vm_compute; reflexivity).
  assert (FN : PyFloat.is_finite (lit "2") = true) by (vm_compute; reflexivity).
  split; [exact H |]. split; [exact H0 |]. split; [exact HN |].
  split; [exact F0 |]. split; [exact FN |].
  exact (X10_series_span_table 3 _ (lit "0") (lit "2") H H0 HN F0 FN).
Defined.

End Extras.
